(** * chaincfg: the chain-parameter registry of eacd

    A shallow embedding of package [chaincfg] (params.go): the [Params]
    record, the four default networks, the package-level registry maps and
    the functions [Register], [mustRegister], [IsPubKeyHashAddrID],
    [IsScriptHashAddrID], [IsBech32SegwitPrefix], [HDPrivateKeyToPublicKeyID]
    and [init], followed by the properties of the registry.

    Conventions.
    - Go's [byte] is [Byte.byte]; [[4]byte] is a 4-tuple of bytes; [[]byte]
      is [list byte]; Go strings are [string] (sequences of 8-bit
      characters).
    - [map[K]struct{}] is a finite set [gset K]; [map[K]V] is [gmap K V].
    - The package-level maps are one [Registry] record that is threaded
      through the functions which read or write them.
    - [wire.BitcoinNet] is a [uint32], kept as a [Z]. *)

From Stdlib Require Import ZArith String Ascii List Lia Sorting.Sorted.
From Stdlib Require Import Strings.Byte.
From stdpp Require Import base gmap sets list strings.

Local Open Scope Z_scope.

(** ** Bytes and fixed-size byte arrays *)

Abbreviation byte := Byte.byte.

#[global] Instance byte_eq_dec : EqDecision byte := Byte.byte_eq_dec.

#[global] Program Instance byte_countable : Countable byte :=
  inj_countable Byte.to_N Byte.of_N _.
Next Obligation. intros x. apply Byte.of_to_N. Qed.

(** [[4]byte] *)
Definition byte4 : Type := byte * byte * byte * byte.

(** [a[:]] for [a : [4]byte]. *)
Definition slice4 (a : byte4) : list byte :=
  let '(b0, b1, b2, b3) := a in [b0; b1; b2; b3].

(** [var key [4]byte; copy(key[:], id)]: [copy] moves
    [min(len(key), len(id))] bytes, the rest of [key] stays zero. *)
Definition copy4 (id : list byte) : byte4 :=
  (nth 0 id x00, nth 1 id x00, nth 2 id x00, nth 3 id x00).

(** ** Errors *)

Inductive error : Type :=
| ErrDuplicateNet
| ErrUnknownHDKeyID.

(** [err.Error()] *)
Definition Error (e : error) : string :=
  match e with
  | ErrDuplicateNet => "duplicate Earthcoin network"
  | ErrUnknownHDKeyID => "unknown hd private extended key bytes"
  end.

#[global] Instance error_eq_dec : EqDecision error.
Proof. solve_decision. Defined.

(** ** Data model (params.go) *)

(** [wire.BitcoinNet], a [uint32] network magic. *)
Abbreviation BitcoinNet := Z (only parsing).

(** [time.Duration]: a count of nanoseconds. *)
Abbreviation Duration := Z (only parsing).

Module time.
Definition Nanosecond : Duration := 1.
Definition Microsecond : Duration := 1000 * Nanosecond.
Definition Millisecond : Duration := 1000 * Microsecond.
Definition Second : Duration := 1000 * Millisecond.
Definition Minute : Duration := 60 * Second.
Definition Hour : Duration := 60 * Minute.
End time.

Module math.
(** [math.MaxInt64] *)
Definition MaxInt64 : Z := 2 ^ 63 - 1.
End math.

(** [Checkpoint]: [Hash] holds the big-endian hex string handed to
    [newHashFromStr]; package [chainhash], which turns it into the 32 bytes
    of a [chainhash.Hash], is not part of this development. *)
Record Checkpoint : Type := mkCheckpoint {
  Height : Z;        (* int32 *)
  Hash : string
}.

Record DNSSeed : Type := mkDNSSeed {
  Host : string;
  HasFiltering : bool
}.

(** [func (d DNSSeed) String() string] *)
Definition DNSSeed_String (d : DNSSeed) : string := Host d.

Record ConsensusDeployment : Type := mkDeployment {
  BitNumber : Z;     (* uint8 *)
  StartTime : Z;     (* uint64 *)
  ExpireTime : Z     (* uint64 *)
}.

(** The deployment offsets, an [iota] enumeration. *)
Definition DeploymentTestDummy : nat := 0.
Definition DeploymentCSV : nat := 1.
Definition DeploymentSegwit : nat := 2.
Definition DefinedDeployments : nat := 3.

(** The zero value of [ConsensusDeployment]. *)
Definition zeroDeployment : ConsensusDeployment := mkDeployment 0 0 0.

(** A keyed array literal
    [[DefinedDeployments]ConsensusDeployment{k1: d1, k2: d2, ...}]:
    the zero array with the listed slots assigned. *)
Definition deploymentArray (kds : list (nat * ConsensusDeployment))
  : list ConsensusDeployment :=
  fold_left (fun arr kd => <[kd.1 := kd.2]> arr) kds
            (replicate DefinedDeployments zeroDeployment).

(** [Params].  [GenesisBlock] and [GenesisHash] point at the block
    literals of genesis.go; no function of the registry reads them and they
    are left out of the record.  [PowLimit] is a [*big.Int]: [None] is the
    nil pointer. *)
Record Params : Type := mkParams {
  Name : string;
  Net : BitcoinNet;
  DefaultPort : string;
  DNSSeeds : list DNSSeed;
  PowLimit : option Z;
  PowLimitBits : Z;                      (* uint32 *)
  BIP0034Height : Z;                     (* int32 *)
  BIP0065Height : Z;
  BIP0066Height : Z;
  CoinbaseMaturity : Z;                  (* uint16 *)
  SubsidyReductionInterval : Z;          (* int32 *)
  TargetTimespan : Duration;
  TargetTimePerBlock : Duration;
  RetargetAdjustmentFactor : Z;          (* int64 *)
  ReduceMinDifficulty : bool;
  MinDiffReductionTime : Duration;
  GenerateSupported : bool;
  Checkpoints : list Checkpoint;
  RuleChangeActivationThreshold : Z;     (* uint32 *)
  MinerConfirmationWindow : Z;           (* uint32 *)
  Deployments : list ConsensusDeployment; (* [DefinedDeployments]ConsensusDeployment *)
  RelayNonStdTxs : bool;
  Bech32HRPSegwit : string;
  PubKeyHashAddrID : byte;
  ScriptHashAddrID : byte;
  PrivateKeyID : byte;
  WitnessPubKeyHashAddrID : byte;
  WitnessScriptHashAddrID : byte;
  HDPrivateKeyID : byte4;
  HDPublicKeyID : byte4;
  HDCoinType : Z                         (* uint32 *)
}.

(** ** The registry (the package-level maps of params.go) *)

Record Registry : Type := mkRegistry {
  registeredNets : gset BitcoinNet;
  pubKeyHashAddrIDs : gset byte;
  scriptHashAddrIDs : gset byte;
  bech32SegwitPrefixes : gset string;
  hdPrivToPubKeyIDs : gmap byte4 (list byte)
}.

(** The five [make(map...)] initialisers. *)
Definition emptyRegistry : Registry := mkRegistry ∅ ∅ ∅ ∅ ∅.

(** A computation over the package state: it returns a value and the new
    registry, or panics with a message. *)
Inductive outcome (A : Type) : Type :=
| Returned (a : A) (r : Registry)
| Panicked (msg : string).
Arguments Returned {A} a r.
Arguments Panicked {A} msg.

Definition M (A : Type) : Type := Registry -> outcome A.

Definition mret {A} (a : A) : M A := fun r => Returned a r.

Definition mbind {A B} (m : M A) (k : A -> M B) : M B :=
  fun r => match m r with
           | Returned a r' => k a r'
           | Panicked msg => Panicked msg
           end.

Definition panic {A} (msg : string) : M A := fun _ => Panicked msg.

Notation "x <- m ;; k" := (mbind m (fun x => k))
  (at level 100, m at next level, right associativity).
Notation "m ;;; k" := (mbind m (fun _ => k))
  (at level 100, right associativity).

(** [Register]: the result is Go's [error], [None] being [nil].  The map
    value [params.HDPublicKeyID[:]] is a slice over the caller's [Params];
    no function of the package writes through it, and the map is kept as
    holding the four bytes. *)
Definition Register (params : Params) : M (option error) :=
  fun r =>
    if decide (Net params ∈ registeredNets r) then
      Returned (Some ErrDuplicateNet) r
    else
      Returned None
        {| registeredNets := {[ Net params ]} ∪ registeredNets r;
           pubKeyHashAddrIDs := {[ PubKeyHashAddrID params ]} ∪ pubKeyHashAddrIDs r;
           scriptHashAddrIDs := {[ ScriptHashAddrID params ]} ∪ scriptHashAddrIDs r;
           hdPrivToPubKeyIDs :=
             <[ HDPrivateKeyID params := slice4 (HDPublicKeyID params) ]>
               (hdPrivToPubKeyIDs r);
           bech32SegwitPrefixes :=
             {[ (Bech32HRPSegwit params +:+ "1")%string ]} ∪ bech32SegwitPrefixes r |}.

(** [mustRegister] *)
Definition mustRegister (params : Params) : M unit :=
  err <- Register params ;;
  match err with
  | Some e => panic ("failed to register network: " +:+ Error e)%string
  | None => mret tt
  end.

(** [IsPubKeyHashAddrID] *)
Definition IsPubKeyHashAddrID (id : byte) (r : Registry) : bool :=
  bool_decide (id ∈ pubKeyHashAddrIDs r).

(** [IsScriptHashAddrID] *)
Definition IsScriptHashAddrID (id : byte) (r : Registry) : bool :=
  bool_decide (id ∈ scriptHashAddrIDs r).

(** [HDPrivateKeyToPublicKeyID]: Go returns the pair [(pubBytes, nil)] or
    [(nil, ErrUnknownHDKeyID)]; the two shapes are the two sides of a sum. *)
Definition HDPrivateKeyToPublicKeyID (id : list byte) (r : Registry)
  : error + list byte :=
  if negb (length id =? 4)%nat then inl ErrUnknownHDKeyID
  else
    let key := copy4 id in
    match hdPrivToPubKeyIDs r !! key with
    | None => inl ErrUnknownHDKeyID
    | Some pubBytes => inr pubBytes
    end.

(** ** [strings.ToLower] and the bech32 prefix query *)

Section Strings.

(** [strings.Map(unicode.ToLower, s)], the path [strings.ToLower] takes
    for a string with a byte outside ASCII.  The Unicode case tables are
    outside this development: the function is a parameter. *)
Variable mapUnicodeToLower : string -> string.

(** [utf8.RuneSelf] *)
Definition RuneSelf : N := 0x80.

(** ['A' <= c && c <= 'Z'] *)
Definition isUpperByte (c : ascii) : bool :=
  ((65 <=? N_of_ascii c) && (N_of_ascii c <=? 90))%N.

(** [c += 'a' - 'A'] on an upper-case byte *)
Definition lowerByte (c : ascii) : ascii :=
  if isUpperByte c then ascii_of_N (N_of_ascii c + 32) else c.

Fixpoint isASCII (s : string) : bool :=
  match s with
  | EmptyString => true
  | String c s' => (N_of_ascii c <? RuneSelf)%N && isASCII s'
  end.

Fixpoint hasUpper (s : string) : bool :=
  match s with
  | EmptyString => false
  | String c s' => isUpperByte c || hasUpper s'
  end.

Fixpoint mapBytes (f : ascii -> ascii) (s : string) : string :=
  match s with
  | EmptyString => EmptyString
  | String c s' => String (f c) (mapBytes f s')
  end.

(** [strings.ToLower] *)
Definition ToLower (s : string) : string :=
  if isASCII s then
    if hasUpper s then mapBytes lowerByte s else s
  else mapUnicodeToLower s.

(** [IsBech32SegwitPrefix] *)
Definition IsBech32SegwitPrefix (prefix : string) (r : Registry) : bool :=
  let prefix := ToLower prefix in
  bool_decide (prefix ∈ bech32SegwitPrefixes r).

End Strings.

(** ** Big integers: [big.Int.SetString] and the proof-of-work limits *)

Module big.

Definition digitVal (c : ascii) : option Z :=
  let n := Z.of_N (N_of_ascii c) in
  if (48 <=? n) && (n <=? 57) then Some (n - 48)
  else if (97 <=? n) && (n <=? 122) then Some (n - 97 + 10)
  else if (65 <=? n) && (n <=? 90) then Some (n - 65 + 10)
  else None.

(** The digits of [s] in [base], most significant first, added to [acc];
    [None] on a character that is not a digit of the base. *)
Fixpoint scanDigits (base : Z) (s : string) (acc : Z) : option Z :=
  match s with
  | EmptyString => Some acc
  | String c s' =>
      match digitVal c with
      | Some d => if d <? base then scanDigits base s' (acc * base + d) else None
      | None => None
      end
  end.

(** At least one digit is required. *)
Definition scanNumber (base : Z) (s : string) : option Z :=
  match s with
  | EmptyString => None
  | _ => scanDigits base s 0
  end.

(** The unsigned part of a base-0 literal: the prefix selects the base
    ([0x] 16, [0b] 2, [0o] or a bare leading [0] 8, otherwise 10). *)
Definition scanPrefixed (s : string) : option Z :=
  match s with
  | String "0" EmptyString => Some 0
  | String "0" (String "x" s') | String "0" (String "X" s') => scanNumber 16 s'
  | String "0" (String "b" s') | String "0" (String "B" s') => scanNumber 2 s'
  | String "0" (String "o" s') | String "0" (String "O" s') => scanNumber 8 s'
  | String "0" s' => scanNumber 8 s'
  | _ => scanNumber 10 s
  end.

(** [new(big.Int).SetString(s, 0)]: the pair [(z, ok)] as an option,
    [None] being [(nil, false)].  The digit separator ['_'] that base 0
    also admits is not modelled; a string that has one is rejected. *)
Definition SetString0 (s : string) : option Z :=
  match s with
  | String "-" s' => Z.opp <$> scanPrefixed s'
  | String "+" s' => scanPrefixed s'
  | _ => scanPrefixed s
  end.

End big.

(** [bigOne] *)
Definition bigOne : Z := 1.

(** [mainPowLimit, _ = new(big.Int).SetString("0x0fffff00...", 0)] *)
Definition mainPowLimit : option Z :=
  big.SetString0 "0x0fffff000000000000000000000000000000000000000000000000000000".

(** [new(big.Int).Sub(new(big.Int).Lsh(bigOne, 255), bigOne)] *)
Definition regressionPowLimit : option Z := Some (Z.shiftl bigOne 255 - bigOne).

Definition testNet3PowLimit : option Z := Some (Z.shiftl bigOne 224 - bigOne).

Definition testNet4PowLimit : option Z :=
  big.SetString0 "0x0fffff000000000000000000000000000000000000000000000000000000".

Definition simNetPowLimit : option Z := Some (Z.shiftl bigOne 255 - bigOne).

(** Modelled from the spec: [blockchain.CompactToBig] (blockchain/difficulty.go
    is not among the sources), the decoder of the "standard compact
    difficulty encoding" of the glossary: a 4-byte floating-point-like
    encoding, whose top byte is a base-256 exponent, whose bit 23 is the
    sign and whose low 23 bits are the mantissa:
    [N = (-1)^sign * mantissa * 256^(exponent-3)]. *)
Definition CompactToBig (compact : Z) : Z :=
  let mantissa := Z.land compact 0x007fffff in
  let isNegative := negb (Z.land compact 0x00800000 =? 0) in
  let exponent := Z.shiftr compact 24 in
  let bn :=
    if exponent <=? 3 then Z.shiftr mantissa (8 * (3 - exponent))
    else Z.shiftl mantissa (8 * (exponent - 3)) in
  if isNegative then - bn else bn.

(** ** The default networks *)

(** [newHashFromStr] hands its argument to [chainhash.NewHashFromStr] and
    panics when that fails; the checkpoint keeps the hex string itself. *)
Definition newHashFromStr (hexStr : string) : string := hexStr.

Section DefaultNets.

(** The network magics [wire.MainNet], [wire.TestNet], [wire.TestNet4] and
    [wire.SimNet] are constants of wire/protocol.go, which is not among
    the sources: they are parameters here. *)
Variables MainNet TestNet TestNet4 SimNet : BitcoinNet.

(** [MainNetParams] *)
Definition MainNetParams : Params := {|
  Name := "mainnet";
  Net := MainNet;
  DefaultPort := "35677";
  DNSSeeds := [
    mkDNSSeed "85.25.44.119" true;
    mkDNSSeed "13.114.218.80" true;
    mkDNSSeed "159.69.19.237" false;
    mkDNSSeed "46.105.62.121" false;
    mkDNSSeed "46.101.126.142" false;
    mkDNSSeed "212.237.21.74" true;
    mkDNSSeed "109.169.63.180" true;
    mkDNSSeed "5.9.10.66" false;
    mkDNSSeed "209.97.179.113" false;
    mkDNSSeed "45.77.86.161" false
  ];
  PowLimit := mainPowLimit;
  PowLimitBits := 504365055;
  BIP0034Height := 710000;
  BIP0065Height := 99999999;
  BIP0066Height := 99999999;
  CoinbaseMaturity := 30;
  SubsidyReductionInterval := 525600;
  TargetTimespan := time.Minute * 30;
  TargetTimePerBlock := time.Minute * 1;
  RetargetAdjustmentFactor := 16;
  ReduceMinDifficulty := false;
  MinDiffReductionTime := 0;
  GenerateSupported := false;
  Checkpoints := [
    mkCheckpoint     100 (newHashFromStr "c3d91cb4726610d422f8652a5a7cc21bd42e1b8009c00462081c81316d9abad6");
    mkCheckpoint   10000 (newHashFromStr "7b50ea3b42e613e65ec2aca6797a5780e1c545a617e4a610577fb4b040f0035b");
    mkCheckpoint   30000 (newHashFromStr "43e2fe7c700191ddfabe2cd09dfd3fc9eb6331f3c19e59b3e4a87cfa88cac543");
    mkCheckpoint   50000 (newHashFromStr "6a4f705b7a34de7dc1b6573b3595fde05c7b4303b35ede20a3b945244adc6c70");
    mkCheckpoint   69500 (newHashFromStr "8387b49853928fc67d8b8421fd9214184db590eeecd90a200c9d902d8b42e11f");
    mkCheckpoint   80000 (newHashFromStr "a7d7ac0b4b1f5eb56b50ad0693c47f47863b8df81f17514bcb5e59c0a4074eba");
    mkCheckpoint   91000 (newHashFromStr "3f135e0e06ae032de5437ae2b981e3ab84c7d22310224a6e53c6e6e769e8f8f0");
    mkCheckpoint  101000 (newHashFromStr "ba5948ef9fce38887df24c54366121437d336bd67a4332508248def0032c5d6e");
    mkCheckpoint  111000 (newHashFromStr "bb9cc6e2d9da343774dc4b49be417731991b90ef53a7fa7eb669cce237223c37");
    mkCheckpoint  121000 (newHashFromStr "1d286956120cf256bed13bcc1f5fe79a98347c80f2225ded92bbbdfc1147b5f5");
    mkCheckpoint  136000 (newHashFromStr "b7c7416c40425bc7976c7b6b87734e2fb84855eecd30e3e9673caf8c7f599b5c");
    mkCheckpoint  153000 (newHashFromStr "9f31abd27721e7eb2b58c0a61a117c324a3a6b8f45c82e8963b1bd14166f6510");
    mkCheckpoint  161000 (newHashFromStr "f7a9069c705516f60878bf6da9bac02c12d0d8984cb90bce03fe34842ba7eb3d");
    mkCheckpoint  170000 (newHashFromStr "827d5ce5ed69153deacab9a2d3c35a7b33cdaa397a6a4a540d538b765182f234");
    mkCheckpoint  181000 (newHashFromStr "69fa48e8b9231f101df79c5b3174feb70bf6da11d88a4ce879a7c9ecb799f46d");
    mkCheckpoint  191000 (newHashFromStr "80a9ea6b375312c376de880b6958459973a95be1dcbf28db1731452a59ef9750");
    mkCheckpoint  200000 (newHashFromStr "003a4cb3bf206cfc23b9477e1c433280ae1b3393a21aa858aa322e8402204cd0");
    mkCheckpoint  220000 (newHashFromStr "bed97c09983d1ee14d5f925c31dc4245b6c9d66af4fdadcf973465cb265b52c3");
    mkCheckpoint  240000 (newHashFromStr "d4e782aae21f551d4a8d7756eb92dfa2cb23d1ede58162382b3bbced4fbee518");
    mkCheckpoint  260000 (newHashFromStr "dfaef016341fab642190a6656b6c52efbdb43ce8a590bace86793f3c1b1276be");
    mkCheckpoint  280000 (newHashFromStr "6b836125e431d3fd31ef55f5fbbdfdadc4d9b98b11db5ee0b7ac8f1f8c3ede32");
    mkCheckpoint  301000 (newHashFromStr "c557d7363393148a630a3fda46ca380a202fe82fa594c5e57f88fbece755bb05");
    mkCheckpoint  324000 (newHashFromStr "8f6cb33fd75e327eb1a1d90b13ba2124e077b4cc5240bc7ec8039aee8a345e85");
    mkCheckpoint  347000 (newHashFromStr "f4bd9894306981ca4c20cdbf0bbd9e9832696701f5b3d3a840d026b893db7337");
    mkCheckpoint  383000 (newHashFromStr "d902cf21480851c35844b0744ea72c1bc2d9318e87a7de63a5e3e3854331a39c");
    mkCheckpoint  401000 (newHashFromStr "e43417eb3b583fd28dfbfb38c65763d990b4c370066ac615a08c4c5c3910ebc9");
    mkCheckpoint  420000 (newHashFromStr "76e0de5adb117e12e85beb264c45e768e47d1720d72a49a24daab57493e07a04");
    mkCheckpoint  440000 (newHashFromStr "bbc6051554e936d0a18adddb95064b16a001ce164d061fb399f26416ce7860f9");
    mkCheckpoint  461000 (newHashFromStr "a60d67991b4963efee5b102c281755afde28803b9bc0b647f0cbc2120b35185b");
    mkCheckpoint  480000 (newHashFromStr "d88e6f5e77a8cb4bcb883168f357a94db31203f1977a15d90b6f6d4c2edebbbb");
    mkCheckpoint  500000 (newHashFromStr "a2989da9f8e785f7040c2e2dfc0177babbf736cfad9f2b401656fea4c3c7c9db");
    mkCheckpoint  510000 (newHashFromStr "7646ee1a99843f1e303d85e14c58dbf2bd65b393b273b379de14534743111b72");
    mkCheckpoint  520000 (newHashFromStr "114f6c2065ad5e668b901dd5ed5e9d302d6153f8e38381fbfd44485d7d499e10");
    mkCheckpoint  540000 (newHashFromStr "d7480699ff87574bfad0038b8697f9bc4df5f0cba31058a637eefbc94e402761");
    mkCheckpoint  600000 (newHashFromStr "85ac8dbbba7a870a45740677be5f35114cb3b70f56d1c93cc2aaf415629037e7");
    mkCheckpoint  700000 (newHashFromStr "450af2f828cdfb29be40d644d39a0858b29fe05b556946db31a7c365cffed705");
    mkCheckpoint  800001 (newHashFromStr "a6d915a25e905d1329e482aac91228b168de6e6efb3838df16c21c3ac3a82ea2");
    mkCheckpoint  900000 (newHashFromStr "7854a46edbdc4311006a9fd27ae601bb1ebd22fc5e8d6f1757e15237080a545b");
    mkCheckpoint 1000000 (newHashFromStr "ec070022a4fe9b450e02edd08c6ed355047bc8e65ef05e881b51c212d7c0fe95");
    mkCheckpoint 1010001 (newHashFromStr "a2cb82b4ae04854108b18c502f1b33e18c6f69b9d4407e8aa205a23242cd4daf");
    mkCheckpoint 1050000 (newHashFromStr "3369fa16394aa222736793fd3fd50d7f7a34d5b1ff67b344eaba269daab28a68");
    mkCheckpoint 1060000 (newHashFromStr "44e3b2bfbfb9eef5ef34df447c9ea4c4912b8a3819c2c56dfd0dc02db8a84347");
    mkCheckpoint 1100000 (newHashFromStr "4173031420285636eeecfab94e4e62e3a3cf6e144b97b2cc3622c683e09102f0");
    mkCheckpoint 1394462 (newHashFromStr "ef308b7f477903acd8f300e6f0684c4888ce28c491fc32c1c469bfba6abf091b");
    mkCheckpoint 1400000 (newHashFromStr "4bc57c3a57cc977db9f3bd6a095f51c0c7cc9c30fa8554505fa8f8e33d9f2b80");
    mkCheckpoint 1410000 (newHashFromStr "7512574ec717d46a90b8c36fd923ef819fdc298b8e4be57be631519662f0db59");
    mkCheckpoint 1573741 (newHashFromStr "6e4dacfd1684e71a178f29f3e9c714d264e6d385f64c31cdbe532b3204ce4e1d");
    mkCheckpoint 1574000 (newHashFromStr "cef389868efd7785b977eb86527e8049a2a5ea472a6ed9bfc0741c6d6b39234b");
    mkCheckpoint 1579000 (newHashFromStr "12cb8ae28107d99f4ba24465b9abf21f98fe855d9b09449cf5c8ed98120829c1");
    mkCheckpoint 1589000 (newHashFromStr "479746c27e323e233e58af6024bb7b9727a26bc0114c26ff537469e6ada105e1");
    mkCheckpoint 1600000 (newHashFromStr "f44cbdcb21fc7716947f763ccca5de5b02ffff7f14beafef0a7486067f6777fa");
    mkCheckpoint 1650000 (newHashFromStr "70caabb0720c95f67a02eabfde27253eaa8698dc6ea5716631890876b9df421a");
    mkCheckpoint 1700000 (newHashFromStr "691eb62d25a0961e81f1a8427b8c21e01ade5befe4a94be5826f49cfecc070a0");
    mkCheckpoint 1750000 (newHashFromStr "8971f1790e58c6de0ea2854872c6ad03752b65567ab8e5c8458ae4a6eb9fb783");
    mkCheckpoint 1766666 (newHashFromStr "ffb7d30ec4d20cae926af05252dc39dbc433b068a0807a8f0dfa63521caca6f0");
    mkCheckpoint 1888888 (newHashFromStr "89530dba778db5a540aac6b7b8659cee8909ba445fa5a54ba3023e98e045692d");
    mkCheckpoint 1892222 (newHashFromStr "685a23cfa75e4e084f32b6a4ae09b3113c9509d84ce0559813627d462df6db88");
    mkCheckpoint 2227008 (newHashFromStr "23eb6ca0fc87c887485a1417364dae6c3ae5cc4801c6eef8fc2b6bb83cdf9013");
    mkCheckpoint 2242222 (newHashFromStr "98b01e772f0ca3b3ac875857e4f3b6571f8f18b8b896d0cb2feefeca90b69583");
    mkCheckpoint 2460000 (newHashFromStr "13dcc432b541f34539f0582ebad2ab045db399e58404385ee1e24b4713346a5b");
    mkCheckpoint 2856666 (newHashFromStr "057391a103bca1b54331c53ac81b9e5f588a359ca6a3068a53103c33d0f0e7ef")
  ];
  RuleChangeActivationThreshold := 6048;
  MinerConfirmationWindow := 8064;
  Deployments := deploymentArray [
    (DeploymentTestDummy,
      {| BitNumber := 28; StartTime := 1199145601; ExpireTime := 1230767999 |});
    (DeploymentCSV,
      {| BitNumber := 0; StartTime := 1485561600; ExpireTime := 1517356801 |});
    (DeploymentSegwit,
      {| BitNumber := 1; StartTime := 1485561600; ExpireTime := 1517356801 |})
  ];
  RelayNonStdTxs := false;
  Bech32HRPSegwit := "eac";
  PubKeyHashAddrID := x30;
  ScriptHashAddrID := x32;
  PrivateKeyID := xb0;
  WitnessPubKeyHashAddrID := x06;
  WitnessScriptHashAddrID := x0a;
  HDPrivateKeyID := (x04, x88, xad, xe4);
  HDPublicKeyID := (x04, x88, xb2, x1e);
  HDCoinType := 2
|}.

(** [RegressionNetParams]; the two witness address IDs are not set in
    the literal and have the zero value. *)
Definition RegressionNetParams : Params := {|
  Name := "regtest";
  Net := TestNet;
  DefaultPort := "18444";
  DNSSeeds := [];
  PowLimit := regressionPowLimit;
  PowLimitBits := 0x207fffff;
  CoinbaseMaturity := 30;
  BIP0034Height := 100000000;
  BIP0065Height := 1351;
  BIP0066Height := 1251;
  SubsidyReductionInterval := 525600;
  TargetTimespan := time.Minute * 30;
  TargetTimePerBlock := time.Minute * 1;
  RetargetAdjustmentFactor := 16;
  ReduceMinDifficulty := true;
  MinDiffReductionTime := time.Minute * 20;
  GenerateSupported := true;
  Checkpoints := [];
  RuleChangeActivationThreshold := 108;
  MinerConfirmationWindow := 144;
  Deployments := deploymentArray [
    (DeploymentTestDummy,
      {| BitNumber := 28; StartTime := 0; ExpireTime := math.MaxInt64 |});
    (DeploymentCSV,
      {| BitNumber := 0; StartTime := 0; ExpireTime := math.MaxInt64 |});
    (DeploymentSegwit,
      {| BitNumber := 1; StartTime := 0; ExpireTime := math.MaxInt64 |})
  ];
  RelayNonStdTxs := true;
  Bech32HRPSegwit := "reac";
  PubKeyHashAddrID := x6f;
  ScriptHashAddrID := x3a;
  PrivateKeyID := xef;
  WitnessPubKeyHashAddrID := x00;
  WitnessScriptHashAddrID := x00;
  HDPrivateKeyID := (x04, x35, x83, x94);
  HDPublicKeyID := (x04, x35, x87, xcf);
  HDCoinType := 1
|}.

(** [TestNet4Params] *)
Definition TestNet4Params : Params := {|
  Name := "testnet4";
  Net := TestNet4;
  DefaultPort := "25677";
  DNSSeeds := [];
  PowLimit := testNet4PowLimit;
  PowLimitBits := 504365055;
  BIP0034Height := 76;
  BIP0065Height := 76;
  BIP0066Height := 76;
  CoinbaseMaturity := 30;
  SubsidyReductionInterval := 525600;
  TargetTimespan := time.Minute * 30;
  TargetTimePerBlock := time.Minute * 1;
  RetargetAdjustmentFactor := 16;
  ReduceMinDifficulty := true;
  MinDiffReductionTime := time.Minute * 5;
  GenerateSupported := false;
  Checkpoints := [
    mkCheckpoint 0 (newHashFromStr "14b1da80b3d734d36a4a2be97ed2c9d49e79c47213d5bcc15b475a1115d28918")
  ];
  RuleChangeActivationThreshold := 1512;
  MinerConfirmationWindow := 2016;
  Deployments := deploymentArray [
    (DeploymentTestDummy,
      {| BitNumber := 28; StartTime := 1199145601; ExpireTime := 1230767999 |});
    (DeploymentCSV,
      {| BitNumber := 0; StartTime := 1483228800; ExpireTime := 1517356801 |});
    (DeploymentSegwit,
      {| BitNumber := 1; StartTime := 1483228800; ExpireTime := 1517356801 |})
  ];
  RelayNonStdTxs := true;
  Bech32HRPSegwit := "teac";
  PubKeyHashAddrID := x6f;
  ScriptHashAddrID := x3a;
  WitnessPubKeyHashAddrID := x52;
  WitnessScriptHashAddrID := x31;
  PrivateKeyID := xef;
  HDPrivateKeyID := (x04, x35, x83, x94);
  HDPublicKeyID := (x04, x35, x87, xcf);
  HDCoinType := 1
|}.

(** [SimNetParams] *)
Definition SimNetParams : Params := {|
  Name := "simnet";
  Net := SimNet;
  DefaultPort := "18555";
  DNSSeeds := [];
  PowLimit := simNetPowLimit;
  PowLimitBits := 0x207fffff;
  BIP0034Height := 0;
  BIP0065Height := 0;
  BIP0066Height := 0;
  CoinbaseMaturity := 30;
  SubsidyReductionInterval := 210000;
  TargetTimespan := time.Hour * 24 * 14;
  TargetTimePerBlock := time.Minute * 10;
  RetargetAdjustmentFactor := 16;
  ReduceMinDifficulty := true;
  MinDiffReductionTime := time.Minute * 20;
  GenerateSupported := true;
  Checkpoints := [];
  RuleChangeActivationThreshold := 75;
  MinerConfirmationWindow := 100;
  Deployments := deploymentArray [
    (DeploymentTestDummy,
      {| BitNumber := 28; StartTime := 0; ExpireTime := math.MaxInt64 |});
    (DeploymentCSV,
      {| BitNumber := 0; StartTime := 0; ExpireTime := math.MaxInt64 |});
    (DeploymentSegwit,
      {| BitNumber := 1; StartTime := 0; ExpireTime := math.MaxInt64 |})
  ];
  RelayNonStdTxs := true;
  Bech32HRPSegwit := "seac";
  PubKeyHashAddrID := x3f;
  ScriptHashAddrID := x7b;
  PrivateKeyID := x64;
  WitnessPubKeyHashAddrID := x19;
  WitnessScriptHashAddrID := x28;
  HDPrivateKeyID := (x04, x20, xb9, x00);
  HDPublicKeyID := (x04, x20, xbd, x3a);
  HDCoinType := 115
|}.

(** [func init()] *)
Definition init : M unit :=
  mustRegister MainNetParams ;;;
  mustRegister TestNet4Params ;;;
  mustRegister RegressionNetParams ;;;
  mustRegister SimNetParams.

(** The default networks, in the order [init] registers them. *)
Definition defaultNets : list Params :=
  [MainNetParams; TestNet4Params; RegressionNetParams; SimNetParams].

End DefaultNets.

(** ** Vocabulary of the properties *)

(** [Registered ps r]: starting from the empty maps, the Profiles [ps]
    were registered, oldest first, every call returning [nil], and [r] is
    the registry they left. *)
Inductive Registered : list Params -> Registry -> Prop :=
| Registered_nil : Registered [] emptyRegistry
| Registered_snoc ps r p r' :
    Registered ps r ->
    Register p r = Returned None r' ->
    Registered (ps ++ [p]) r'.

(** Any run of [Register] calls, whatever each one returns. *)
Fixpoint runRegisters (qs : list Params) (r : Registry) : Registry :=
  match qs with
  | [] => r
  | q :: qs' =>
      match Register q r with
      | Returned _ r' => runRegisters qs' r'
      | Panicked _ => r
      end
  end.

(** The Profile that registered the HD private prefix [k] last. *)
Definition lastWithHDPrivateKeyID (k : byte4) (ps : list Params) : option Params :=
  last (filter (fun p => HDPrivateKeyID p = k) ps).

(** Heights strictly increase from oldest to newest. *)
Definition heightsIncrease (cps : list Checkpoint) : Prop :=
  forall (i j : nat) (a b : Checkpoint),
    (i < j)%nat -> cps !! i = Some a -> cps !! j = Some b -> Height a < Height b.

(** The same, checked on neighbours. *)
Fixpoint heightsIncreaseb (cps : list Checkpoint) : bool :=
  match cps with
  | a :: (b :: _) as rest => (Height a <? Height b) && heightsIncreaseb rest
  | _ => true
  end.

(** The value the default networks use for a deployment that never
    expires. *)
Definition neverExpires : Z := math.MaxInt64.

Definition windowSane (d : ConsensusDeployment) : Prop :=
  ExpireTime d = neverExpires \/ StartTime d < ExpireTime d.

(** The defined deployment slots. *)
Definition deploymentSlots : list nat :=
  [DeploymentTestDummy; DeploymentCSV; DeploymentSegwit].

(** [q] is a casing of [s]: the two fold to the same lower-case string. *)
Definition casingOf (lower : string -> string) (s q : string) : Prop :=
  lower q = lower s.

(** A caller's own network, a literal that sets the fields the registry
    reads and leaves every other field at its zero value. *)
Definition customParams (net : BitcoinNet) (hrp : string)
    (pubKeyHash scriptHash : byte) (hdPriv hdPub : byte4) : Params := {|
  Name := ""; Net := net; DefaultPort := ""; DNSSeeds := [];
  PowLimit := None; PowLimitBits := 0;
  BIP0034Height := 0; BIP0065Height := 0; BIP0066Height := 0;
  CoinbaseMaturity := 0; SubsidyReductionInterval := 0;
  TargetTimespan := 0; TargetTimePerBlock := 0;
  RetargetAdjustmentFactor := 0; ReduceMinDifficulty := false;
  MinDiffReductionTime := 0; GenerateSupported := false;
  Checkpoints := [];
  RuleChangeActivationThreshold := 0; MinerConfirmationWindow := 0;
  Deployments := deploymentArray [];
  RelayNonStdTxs := false;
  Bech32HRPSegwit := hrp;
  PubKeyHashAddrID := pubKeyHash; ScriptHashAddrID := scriptHash;
  PrivateKeyID := x00;
  WitnessPubKeyHashAddrID := x00; WitnessScriptHashAddrID := x00;
  HDPrivateKeyID := hdPriv; HDPublicKeyID := hdPub;
  HDCoinType := 0
|}.

(** The Profiles of a run of [Register] calls whose call returned [nil]. *)
Fixpoint accepted (qs : list Params) (r : Registry) : list Params :=
  match qs with
  | [] => []
  | q :: qs' =>
      match Register q r with
      | Returned None r' => q :: accepted qs' r'
      | Returned (Some _) r' => accepted qs' r'
      | Panicked _ => []
      end
  end.

(** The first Profile of [qs] that carries the magic [n]. *)
Definition firstWithNet (n : BitcoinNet) (qs : list Params) : option Params :=
  List.find (fun q => bool_decide (Net q = n)) qs.

(** The last byte of [s] is the separator ['1']. *)
Fixpoint endsWithSeparator (s : string) : bool :=
  match s with
  | EmptyString => false
  | String c EmptyString => Ascii.eqb c "1"
  | String _ s' => endsWithSeparator s'
  end.

(** Profiles that share an HD private prefix carry the same public prefix. *)
Definition hdPrefixesAgree (ps : list Params) : Prop :=
  forall p q, p ∈ ps -> q ∈ ps ->
    HDPrivateKeyID p = HDPrivateKeyID q -> HDPublicKeyID p = HDPublicKeyID q.

(** Sample magics for running the default networks: any four pairwise
    distinct values serve. *)
Module sample.
Definition MainNet : BitcoinNet := 0xa1a2a3a4.
Definition TestNet : BitcoinNet := 0xb1b2b3b4.
Definition TestNet4 : BitcoinNet := 0xc1c2c3c4.
Definition SimNet : BitcoinNet := 0xd1d2d3d4.
(** The identity stands in for the Unicode lower-casing of non-ASCII
    strings, which no example below reaches. *)
Definition mapUnicodeToLower (s : string) : string := s.
End sample.

(** * Properties *)

(** ** Register *)

Lemma Register_dup (p : Params) (r : Registry) :
  Net p ∈ registeredNets r ->
  Register p r = Returned (Some ErrDuplicateNet) r.
Proof. intros Hin. unfold Register. by rewrite decide_True. Qed.

Lemma Register_fresh (p : Params) (r : Registry) :
  Net p ∉ registeredNets r ->
  exists r', Register p r = Returned None r' /\
    registeredNets r' = {[ Net p ]} ∪ registeredNets r /\
    pubKeyHashAddrIDs r' = {[ PubKeyHashAddrID p ]} ∪ pubKeyHashAddrIDs r /\
    scriptHashAddrIDs r' = {[ ScriptHashAddrID p ]} ∪ scriptHashAddrIDs r /\
    bech32SegwitPrefixes r' =
      {[ (Bech32HRPSegwit p +:+ "1")%string ]} ∪ bech32SegwitPrefixes r /\
    hdPrivToPubKeyIDs r' =
      <[ HDPrivateKeyID p := slice4 (HDPublicKeyID p) ]> (hdPrivToPubKeyIDs r).
Proof.
  intros Hnin. unfold Register. rewrite decide_False by done.
  eexists. split; [reflexivity|]. simpl. done.
Qed.

(** What a successful call did, read back from its result. *)
Lemma Register_ok_inv (p : Params) (r r' : Registry) :
  Register p r = Returned None r' ->
  (Net p ∉ registeredNets r) /\
  registeredNets r' = {[ Net p ]} ∪ registeredNets r /\
  pubKeyHashAddrIDs r' = {[ PubKeyHashAddrID p ]} ∪ pubKeyHashAddrIDs r /\
  scriptHashAddrIDs r' = {[ ScriptHashAddrID p ]} ∪ scriptHashAddrIDs r /\
  bech32SegwitPrefixes r' =
    {[ (Bech32HRPSegwit p +:+ "1")%string ]} ∪ bech32SegwitPrefixes r /\
  hdPrivToPubKeyIDs r' =
    <[ HDPrivateKeyID p := slice4 (HDPublicKeyID p) ]> (hdPrivToPubKeyIDs r).
Proof.
  unfold Register. destruct (decide (Net p ∈ registeredNets r)) as [Hin|Hnin].
  - discriminate.
  - intros [= <-]. simpl. done.
Qed.

(** The magic decides alone whether a call fails. *)
Lemma Register_dup_iff (p : Params) (r : Registry) :
  Register p r = Returned (Some ErrDuplicateNet) r <-> Net p ∈ registeredNets r.
Proof.
  split; [|apply Register_dup]. unfold Register.
  destruct (decide (Net p ∈ registeredNets r)); [done|discriminate].
Qed.

(** A call returns either [nil] or [ErrDuplicateNet], and never panics. *)
Lemma Register_total (p : Params) (r : Registry) :
  Register p r = Returned (Some ErrDuplicateNet) r \/
  exists r', Register p r = Returned None r'.
Proof.
  destruct (decide (Net p ∈ registeredNets r)) as [Hin|Hnin].
  - left. by apply Register_dup.
  - right. destruct (Register_fresh p r Hnin) as (r' & H & _). eauto.
Qed.

(** ** The registry after a run of registrations *)

(** One step of the induction shared by the four set-valued indices: the
    index after a registration is the new element or an old one. *)
Ltac registered_set_step IH p :=
  rewrite elem_of_union, elem_of_singleton, IH; split;
  [ intros [->|(q & Hq & <-)]; [exists p|exists q];
    (split; [rewrite elem_of_app, list_elem_of_singleton; auto | reflexivity])
  | intros (q & Hq & <-); apply elem_of_app in Hq as [Hq|Hq];
    [ right; eauto
    | left; apply list_elem_of_singleton in Hq; by subst ] ].

Ltac registered_set_base :=
  simpl; split;
  [ intros H; by apply not_elem_of_empty in H
  | intros (p & Hp & _); by apply elem_of_nil in Hp ].

Lemma Registered_nets (ps : list Params) (r : Registry) (n : BitcoinNet) :
  Registered ps r ->
  n ∈ registeredNets r <-> exists p, p ∈ ps /\ Net p = n.
Proof.
  intros Hreg. induction Hreg as [|ps r0 p r' _ IH Hok].
  - registered_set_base.
  - apply Register_ok_inv in Hok as (_ & -> & _). registered_set_step IH p.
Qed.

Lemma Registered_pubKeyHash (ps : list Params) (r : Registry) (id : byte) :
  Registered ps r ->
  id ∈ pubKeyHashAddrIDs r <-> exists p, p ∈ ps /\ PubKeyHashAddrID p = id.
Proof.
  intros Hreg. induction Hreg as [|ps r0 p r' _ IH Hok].
  - registered_set_base.
  - apply Register_ok_inv in Hok as (_ & _ & -> & _). registered_set_step IH p.
Qed.

Lemma Registered_scriptHash (ps : list Params) (r : Registry) (id : byte) :
  Registered ps r ->
  id ∈ scriptHashAddrIDs r <-> exists p, p ∈ ps /\ ScriptHashAddrID p = id.
Proof.
  intros Hreg. induction Hreg as [|ps r0 p r' _ IH Hok].
  - registered_set_base.
  - apply Register_ok_inv in Hok as (_ & _ & _ & -> & _). registered_set_step IH p.
Qed.

Lemma Registered_bech32 (ps : list Params) (r : Registry) (s : string) :
  Registered ps r ->
  s ∈ bech32SegwitPrefixes r <->
  exists p, p ∈ ps /\ (Bech32HRPSegwit p +:+ "1")%string = s.
Proof.
  intros Hreg. induction Hreg as [|ps r0 p r' _ IH Hok].
  - registered_set_base.
  - apply Register_ok_inv in Hok as (_ & _ & _ & _ & -> & _).
    registered_set_step IH p.
Qed.

(** The HD map holds, under each private prefix, the public prefix of the
    Profile that registered it last. *)
Lemma Registered_hdmap (ps : list Params) (r : Registry) (k : byte4) :
  Registered ps r ->
  hdPrivToPubKeyIDs r !! k =
  (fun p => slice4 (HDPublicKeyID p)) <$> lastWithHDPrivateKeyID k ps.
Proof.
  intros Hreg. unfold lastWithHDPrivateKeyID.
  induction Hreg as [|ps r0 p r' _ IH Hok].
  - simpl. apply lookup_empty.
  - apply Register_ok_inv in Hok as (_ & _ & _ & _ & _ & ->).
    rewrite filter_app. destruct (decide (HDPrivateKeyID p = k)) as [<-|Hne].
    + rewrite lookup_insert_eq.
      rewrite (filter_cons_True _ p []) by done.
      rewrite filter_nil, last_snoc. done.
    + rewrite lookup_insert_ne by done.
      rewrite (filter_cons_False _ p []) by done.
      rewrite filter_nil, app_nil_r. done.
Qed.

(** The registered magics are pairwise distinct. *)
Lemma Registered_NoDup (ps : list Params) (r : Registry) :
  Registered ps r -> NoDup (Net <$> ps).
Proof.
  intros Hreg. induction Hreg as [|ps r0 p r' Hreg0 IH Hok].
  - constructor.
  - apply Register_ok_inv in Hok as (Hnin & _).
    rewrite fmap_app. apply NoDup_app. split; [done|]. split.
    + intros n Hn Hn'. simpl in Hn'. apply list_elem_of_singleton in Hn'. subst n.
      apply Hnin. apply (Registered_nets _ _ _ Hreg0).
      apply list_elem_of_fmap in Hn as (q & -> & Hq). eauto.
    + simpl. apply NoDup_singleton.
Qed.

(** Every run of [Register] calls from the empty maps leaves a registry of
    this kind: the calls that failed changed nothing. *)
Lemma runRegisters_Registered (qs ps : list Params) (r : Registry) :
  Registered ps r ->
  exists ps', Registered (ps ++ ps') (runRegisters qs r) /\ ps' ⊆ qs.
Proof.
  revert ps r. induction qs as [|q qs IH]; intros ps r Hreg; simpl.
  - exists []. rewrite app_nil_r. split; [done|]. intros x Hx. done.
  - destruct (Register_total q r) as [Hdup|(r' & Hok)].
    + rewrite Hdup. destruct (IH ps r Hreg) as (ps' & H1 & H2).
      exists ps'. split; [done|]. intros x Hx. apply elem_of_cons. auto.
    + rewrite Hok.
      destruct (IH (ps ++ [q]) r' (Registered_snoc _ _ _ _ Hreg Hok))
        as (ps' & H1 & H2).
      exists (q :: ps'). rewrite <- app_assoc in H1. split; [done|].
      intros x [->|Hx]%elem_of_cons; apply elem_of_cons; auto.
Qed.

(** ** Byte arrays and slices *)

Lemma slice4_length (k : byte4) : length (slice4 k) = 4%nat.
Proof. by destruct k as [[[a b] c] d]. Qed.

Lemma copy4_slice4 (k : byte4) : copy4 (slice4 k) = k.
Proof. by destruct k as [[[a b] c] d]. Qed.

Lemma slice4_copy4 (id : list byte) : length id = 4%nat -> slice4 (copy4 id) = id.
Proof.
  destruct id as [|a [|b [|c [|d [|e id]]]]]; simpl; try discriminate. done.
Qed.

Lemma slice4_inj (k1 k2 : byte4) : slice4 k1 = slice4 k2 -> k1 = k2.
Proof. intros H. by rewrite <- (copy4_slice4 k1), H, copy4_slice4. Qed.

(** ** The last Profile under an HD private prefix *)

Lemma lastWithHDPrivateKeyID_Some (k : byte4) (ps : list Params) (q : Params) :
  lastWithHDPrivateKeyID k ps = Some q -> q ∈ ps /\ HDPrivateKeyID q = k.
Proof.
  unfold lastWithHDPrivateKeyID. intros H.
  apply last_Some_elem_of in H. by apply list_elem_of_filter in H as [? ?].
Qed.

Lemma lastWithHDPrivateKeyID_None (k : byte4) (ps : list Params) :
  lastWithHDPrivateKeyID k ps = None <->
  forall p, p ∈ ps -> HDPrivateKeyID p <> k.
Proof.
  unfold lastWithHDPrivateKeyID. rewrite last_None. split.
  - intros Hnil p Hp Hk.
    assert (p ∈ filter (fun p => HDPrivateKeyID p = k) ps) as Hin
      by (apply list_elem_of_filter; done).
    rewrite Hnil in Hin. by apply elem_of_nil in Hin.
  - intros Hall. destruct (filter _ ps) as [|q l] eqn:E; [done|].
    assert (q ∈ filter (fun p => HDPrivateKeyID p = k) ps) as Hin
      by (rewrite E; apply elem_of_cons; auto).
    apply list_elem_of_filter in Hin as [Hk Hq]. by destruct (Hall q Hq).
Qed.

Lemma lastWithHDPrivateKeyID_split (ps1 ps2 : list Params) (p : Params) :
  (forall q, q ∈ ps2 -> HDPrivateKeyID q <> HDPrivateKeyID p) ->
  lastWithHDPrivateKeyID (HDPrivateKeyID p) (ps1 ++ p :: ps2) = Some p.
Proof.
  intros Hlater. unfold lastWithHDPrivateKeyID.
  rewrite filter_app, filter_cons_True by done.
  assert (filter (fun q => HDPrivateKeyID q = HDPrivateKeyID p) ps2 = []) as ->.
  { apply (proj1 (last_None _)).
    apply (proj2 (lastWithHDPrivateKeyID_None _ _)). done. }
  change (?l ++ [p]) with (l ++ [p]). apply last_snoc.
Qed.

(** What the lookup returns, in terms of the map. *)
Lemma HDPrivateKeyToPublicKeyID_eq (id : list byte) (r : Registry) :
  HDPrivateKeyToPublicKeyID id r =
  if decide (length id = 4%nat) then
    match hdPrivToPubKeyIDs r !! copy4 id with
    | None => inl ErrUnknownHDKeyID
    | Some pubBytes => inr pubBytes
    end
  else inl ErrUnknownHDKeyID.
Proof.
  unfold HDPrivateKeyToPublicKeyID.
  destruct (decide (length id = 4%nat)) as [->|Hne]; [done|].
  apply Nat.eqb_neq in Hne. by rewrite Hne.
Qed.

(** ** Registration exclusivity *)

(** C1.  For a Profile whose magic is not registered yet, [Register]
    returns [nil]; a later call with the same magic, whatever its other
    fields, returns [ErrDuplicateNet] and hands back the very registry the
    first call left: the magic set, both address-ID sets, the bech32 prefix
    set and the HD map are all unchanged. *)
Theorem Register_twice (r : Registry) (p : Params) :
  Net p ∉ registeredNets r ->
  exists r1 : Registry,
    Register p r = Returned None r1 /\
    forall p' : Params,
      Net p' = Net p -> Register p' r1 = Returned (Some ErrDuplicateNet) r1.
Proof.
  intros Hfresh.
  destruct (Register_fresh p r Hfresh) as (r1 & Hok & Hnets & _).
  exists r1. split; [exact Hok|].
  intros p' Hsame. apply Register_dup.
  rewrite Hnets, Hsame. apply elem_of_union_l, elem_of_singleton. reflexivity.
Qed.

Lemma Register_twice_witness :
  (Net (MainNetParams sample.MainNet) ∉ registeredNets emptyRegistry) /\
  exists r1 : Registry,
    Register (MainNetParams sample.MainNet) emptyRegistry = Returned None r1 /\
    forall p' : Params,
      Net p' = Net (MainNetParams sample.MainNet) ->
      Register p' r1 = Returned (Some ErrDuplicateNet) r1.
Proof.
  split.
  - simpl. apply not_elem_of_empty.
  - apply (Register_twice emptyRegistry (MainNetParams sample.MainNet)).
    simpl. apply not_elem_of_empty.
Defined.

(** ** Address-ID soundness *)

Lemma IsPubKeyHashAddrID_true (id : byte) (r : Registry) :
  IsPubKeyHashAddrID id r = true <-> id ∈ pubKeyHashAddrIDs r.
Proof. unfold IsPubKeyHashAddrID. apply bool_decide_eq_true. Qed.

Lemma IsScriptHashAddrID_true (id : byte) (r : Registry) :
  IsScriptHashAddrID id r = true <-> id ∈ scriptHashAddrIDs r.
Proof. unfold IsScriptHashAddrID. apply bool_decide_eq_true. Qed.

(** C5.  Right after a successful [Register p], both address-ID queries
    answer true on [p]'s own IDs; each query is membership in the union of
    the IDs of all the Profiles registered so far. *)
Theorem address_IDs_after_Register (r r' : Registry) (p : Params) :
  Register p r = Returned None r' ->
  IsPubKeyHashAddrID (PubKeyHashAddrID p) r' = true /\
  IsScriptHashAddrID (ScriptHashAddrID p) r' = true /\
  forall ps : list Params,
    Registered ps r ->
    (forall id : byte,
        IsPubKeyHashAddrID id r' = true <->
        exists q, q ∈ ps ++ [p] /\ PubKeyHashAddrID q = id) /\
    (forall id : byte,
        IsScriptHashAddrID id r' = true <->
        exists q, q ∈ ps ++ [p] /\ ScriptHashAddrID q = id).
Proof.
  intros Hok.
  destruct (Register_ok_inv p r r' Hok) as (_ & _ & Hpk & Hsh & _).
  split; [|split].
  - apply IsPubKeyHashAddrID_true. rewrite Hpk.
    apply elem_of_union_l, elem_of_singleton. reflexivity.
  - apply IsScriptHashAddrID_true. rewrite Hsh.
    apply elem_of_union_l, elem_of_singleton. reflexivity.
  - intros ps Hreg.
    pose proof (Registered_snoc _ _ _ _ Hreg Hok) as Hreg'. split; intros id.
    + rewrite IsPubKeyHashAddrID_true.
      apply (Registered_pubKeyHash _ _ _ Hreg').
    + rewrite IsScriptHashAddrID_true.
      apply (Registered_scriptHash _ _ _ Hreg').
Qed.

Lemma address_IDs_after_Register_witness :
  let p := customParams 0xAABBCCDD "xyz" x1f x05
                        (x01, x02, x03, x04) (x05, x06, x07, x08) in
  let r' := runRegisters [p] emptyRegistry in
  Register p emptyRegistry = Returned None r' /\
  IsPubKeyHashAddrID x1f r' = true /\
  IsScriptHashAddrID x05 r' = true.
Proof.
  intros p r'.
  assert (Register p emptyRegistry = Returned None r') as Hok by reflexivity.
  split; [exact Hok|].
  destruct (address_IDs_after_Register emptyRegistry r' p Hok) as (H1 & H2 & _).
  split; [exact H1|exact H2].
Defined.

(** ** The HD prefix lookup *)

(** The lookup fails exactly on an id that is not 4 bytes long or that no
    registered Profile has as its HD private prefix; the only error is
    [ErrUnknownHDKeyID]. *)
Lemma HDPrivateKeyToPublicKeyID_fails
    (ps : list Params) (r : Registry) (id : list byte) :
  Registered ps r ->
  HDPrivateKeyToPublicKeyID id r = inl ErrUnknownHDKeyID <->
  length id <> 4%nat \/ forall p, p ∈ ps -> slice4 (HDPrivateKeyID p) <> id.
Proof.
  intros Hreg. rewrite HDPrivateKeyToPublicKeyID_eq.
  destruct (decide (length id = 4%nat)) as [Hlen|Hlen]; [|by split; auto].
  rewrite (Registered_hdmap _ _ _ Hreg).
  destruct (lastWithHDPrivateKeyID (copy4 id) ps) as [q|] eqn:E; simpl.
  - split; [discriminate|]. intros [Hne|Hall]; [done|].
    apply lastWithHDPrivateKeyID_Some in E as [Hq Hk].
    destruct (Hall q Hq). by rewrite Hk, slice4_copy4.
  - split; [|done]. intros _. right. intros p Hp Heq.
    apply (proj1 (lastWithHDPrivateKeyID_None _ _) E p Hp).
    by rewrite <- Heq, copy4_slice4.
Qed.

Lemma HDPrivateKeyToPublicKeyID_error
    (id : list byte) (r : Registry) (e : error) :
  HDPrivateKeyToPublicKeyID id r = inl e -> e = ErrUnknownHDKeyID.
Proof.
  rewrite HDPrivateKeyToPublicKeyID_eq.
  destruct (decide _); [destruct (_ !! _)|]; congruence.
Qed.

(** On success the result is the HD public prefix of the Profile that
    registered the queried private prefix last. *)
Lemma HDPrivateKeyToPublicKeyID_succeeds
    (ps : list Params) (r : Registry) (id pub : list byte) :
  Registered ps r ->
  HDPrivateKeyToPublicKeyID id r = inr pub <->
  length id = 4%nat /\
  exists q, lastWithHDPrivateKeyID (copy4 id) ps = Some q /\
            pub = slice4 (HDPublicKeyID q).
Proof.
  intros Hreg. rewrite HDPrivateKeyToPublicKeyID_eq.
  destruct (decide (length id = 4%nat)) as [Hlen|Hlen].
  - rewrite (Registered_hdmap _ _ _ Hreg).
    destruct (lastWithHDPrivateKeyID (copy4 id) ps) as [q|]; simpl.
    + split.
      * intros [= <-]. eauto.
      * intros (_ & q' & [= <-] & ->). done.
    + split; [discriminate|]. intros (_ & q' & Hq' & _). discriminate.
  - split; [discriminate|]. intros [? _]. done.
Qed.

(** C2 (amended).  The lookup fails with [ErrUnknownHDKeyID] if and only if
    the id is not exactly 4 bytes long or equals no registered Profile's
    [HDPrivateKeyID]; otherwise it returns the 4-byte [HDPublicKeyID] of
    the Profile that registered that private prefix last.  So for every
    registered Profile [p] the lookup of [p.HDPrivateKeyID] succeeds with
    the [HDPublicKeyID] of the latest Profile sharing [p]'s private prefix,
    which is [p]'s own whenever no Profile registered after [p] has the
    same private prefix. *)
Theorem HDPrivateKeyToPublicKeyID_registered (ps : list Params) (r : Registry) :
  Registered ps r ->
  (forall id : list byte,
      HDPrivateKeyToPublicKeyID id r = inl ErrUnknownHDKeyID <->
      length id <> 4%nat \/
      forall p, p ∈ ps -> slice4 (HDPrivateKeyID p) <> id) /\
  (forall (id : list byte) (e : error),
      HDPrivateKeyToPublicKeyID id r = inl e -> e = ErrUnknownHDKeyID) /\
  (forall id pub : list byte,
      HDPrivateKeyToPublicKeyID id r = inr pub <->
      length id = 4%nat /\
      exists q, lastWithHDPrivateKeyID (copy4 id) ps = Some q /\
                pub = slice4 (HDPublicKeyID q)) /\
  (forall p : Params, p ∈ ps ->
      exists q, q ∈ ps /\ HDPrivateKeyID q = HDPrivateKeyID p /\
        lastWithHDPrivateKeyID (HDPrivateKeyID p) ps = Some q /\
        HDPrivateKeyToPublicKeyID (slice4 (HDPrivateKeyID p)) r =
          inr (slice4 (HDPublicKeyID q))) /\
  (forall (ps1 ps2 : list Params) (p : Params),
      ps = ps1 ++ p :: ps2 ->
      (forall q, q ∈ ps2 -> HDPrivateKeyID q <> HDPrivateKeyID p) ->
      HDPrivateKeyToPublicKeyID (slice4 (HDPrivateKeyID p)) r =
        inr (slice4 (HDPublicKeyID p))).
Proof.
  intros Hreg. split; [|split; [|split; [|split]]].
  - intros id. by apply HDPrivateKeyToPublicKeyID_fails.
  - intros id e. apply HDPrivateKeyToPublicKeyID_error.
  - intros id pub. by apply HDPrivateKeyToPublicKeyID_succeeds.
  - intros p Hp.
    destruct (lastWithHDPrivateKeyID (HDPrivateKeyID p) ps) as [q|] eqn:E.
    + destruct (lastWithHDPrivateKeyID_Some _ _ _ E) as [Hq Hk].
      exists q. repeat split; try done.
      apply (HDPrivateKeyToPublicKeyID_succeeds _ _ _ _ Hreg).
      rewrite slice4_length, copy4_slice4. eauto.
    + destruct (proj1 (lastWithHDPrivateKeyID_None _ _) E p Hp). reflexivity.
  - intros ps1 ps2 p -> Hlater.
    apply (HDPrivateKeyToPublicKeyID_succeeds _ _ _ _ Hreg).
    rewrite slice4_length, copy4_slice4. split; [done|].
    exists p. split; [|done]. by apply lastWithHDPrivateKeyID_split.
Qed.

(** Profiles with pairwise distinct magics all register, in order. *)
Lemma Registered_run_from (qs ps : list Params) (r : Registry) :
  Registered ps r ->
  NoDup (Net <$> (ps ++ qs)) ->
  Registered (ps ++ qs) (runRegisters qs r).
Proof.
  revert ps r. induction qs as [|q qs IH]; intros ps r Hreg Hnd; simpl.
  - by rewrite app_nil_r.
  - assert (Net q ∉ registeredNets r) as Hfresh.
    { rewrite (Registered_nets _ _ _ Hreg). intros (p & Hp & Hpq).
      rewrite fmap_app in Hnd. apply NoDup_app in Hnd as (_ & Hdisj & _).
      apply (Hdisj (Net p)).
      - apply list_elem_of_fmap. eauto.
      - rewrite Hpq. simpl. apply elem_of_cons. auto. }
    destruct (Register_fresh q r Hfresh) as (r' & Hok & _). rewrite Hok.
    replace (ps ++ q :: qs) with ((ps ++ [q]) ++ qs) by (by rewrite <- app_assoc).
    apply IH.
    + by apply (Registered_snoc _ _ _ _ Hreg).
    + by rewrite <- app_assoc.
Qed.

Lemma Registered_run (qs : list Params) :
  NoDup (Net <$> qs) -> Registered qs (runRegisters qs emptyRegistry).
Proof. intros Hnd. by apply (Registered_run_from qs [] _ Registered_nil). Qed.

(** Closes a [NoDup] goal over concrete magics by evaluation. *)
Ltac nodup_by_eval := apply (bool_decide_unpack _); vm_compute; exact I.

Lemma HDPrivateKeyToPublicKeyID_registered_witness :
  let p := customParams 0xAABBCCDD "xyz" x1f x05
                        (x01, x02, x03, x04) (x05, x06, x07, x08) in
  let r := runRegisters [p] emptyRegistry in
  Registered [p] r /\
  HDPrivateKeyToPublicKeyID [x01; x02; x03; x04] r = inr [x05; x06; x07; x08] /\
  forall e : error,
    HDPrivateKeyToPublicKeyID [x01; x02; x03] r = inl e -> e = ErrUnknownHDKeyID.
Proof.
  intros p r.
  assert (Registered [p] r) as Hreg by (apply Registered_run; nodup_by_eval).
  destruct (HDPrivateKeyToPublicKeyID_registered [p] r Hreg)
    as (_ & Herr & _ & _ & Hown).
  split; [exact Hreg|]. split.
  - apply (Hown [] [] p eq_refl). intros q Hq. by apply elem_of_nil in Hq.
  - apply Herr.
Defined.

(** C2 as stated fails: once a second Profile with the same HD private
    prefix is registered, the lookup of the first Profile's private prefix
    returns the second Profile's public prefix, not the first one's. *)
Lemma HD_round_trip_counterexample :
  let p1 := customParams 0xAABBCCDD "xyz" x1f x05
                         (x01, x02, x03, x04) (x05, x06, x07, x08) in
  let p2 := customParams 0xAABBCCDE "xyz" x1f x05
                         (x01, x02, x03, x04) (x09, x0a, x0b, x0c) in
  let r := runRegisters [p1; p2] emptyRegistry in
  Registered [p1; p2] r /\
  slice4 (HDPrivateKeyID p1) = [x01; x02; x03; x04] /\
  slice4 (HDPublicKeyID p1) = [x05; x06; x07; x08] /\
  HDPrivateKeyToPublicKeyID (slice4 (HDPrivateKeyID p1)) r
    = inr [x09; x0a; x0b; x0c].
Proof.
  intros p1 p2 r. split; [apply Registered_run; nodup_by_eval|].
  repeat split; vm_compute; reflexivity.
Qed.

(** ** The duplicate check reads the magic alone *)

(** C9.  A Profile with a fresh magic registers successfully whatever
    address IDs, bech32 part or HD private prefix it shares with the
    Profiles already registered; when it carries the [HDPrivateKeyID] of an
    earlier Profile, the map entry is overwritten and the lookup of that
    prefix returns the later Profile's [HDPublicKeyID]. *)
Theorem Register_inspects_only_magic
    (ps : list Params) (r : Registry) (p2 : Params) :
  Registered ps r ->
  (forall q, q ∈ ps -> Net q <> Net p2) ->
  exists r2 : Registry,
    Register p2 r = Returned None r2 /\
    Registered (ps ++ [p2]) r2 /\
    forall p1 : Params,
      p1 ∈ ps ->
      HDPrivateKeyID p1 = HDPrivateKeyID p2 ->
      HDPrivateKeyToPublicKeyID (slice4 (HDPrivateKeyID p1)) r2
        = inr (slice4 (HDPublicKeyID p2)).
Proof.
  intros Hreg Hmagic.
  assert (Net p2 ∉ registeredNets r) as Hfresh.
  { rewrite (Registered_nets _ _ _ Hreg). intros (q & Hq & Hqn).
    by apply (Hmagic q Hq). }
  destruct (Register_fresh p2 r Hfresh) as (r2 & Hok & _ & _ & _ & _ & Hmap).
  exists r2. split; [exact Hok|].
  split; [by apply (Registered_snoc _ _ _ _ Hreg)|].
  intros p1 _ Hsame. rewrite HDPrivateKeyToPublicKeyID_eq.
  rewrite slice4_length, copy4_slice4, Hmap, Hsame. simpl.
  by rewrite lookup_insert_eq.
Qed.

Lemma Register_inspects_only_magic_witness :
  let t4 := TestNet4Params sample.TestNet4 in
  let p2 := customParams 0xAABBCCDD (Bech32HRPSegwit t4)
              (PubKeyHashAddrID t4) (ScriptHashAddrID t4)
              (HDPrivateKeyID t4) (x05, x06, x07, x08) in
  let r := runRegisters [t4] emptyRegistry in
  Registered [t4] r /\
  slice4 (HDPublicKeyID t4) = [x04; x35; x87; xcf] /\
  exists r2 : Registry,
    Register p2 r = Returned None r2 /\
    HDPrivateKeyToPublicKeyID (slice4 (HDPrivateKeyID t4)) r2
      = inr [x05; x06; x07; x08].
Proof.
  intros t4 p2 r.
  assert (Registered [t4] r) as Hreg by (apply Registered_run; nodup_by_eval).
  split; [exact Hreg|]. split; [reflexivity|].
  destruct (Register_inspects_only_magic [t4] r p2 Hreg) as (r2 & Hok & _ & Hov).
  - intros q Hq. apply list_elem_of_singleton in Hq. subst q.
    vm_compute. discriminate.
  - exists r2. split; [exact Hok|].
    apply (Hov t4); [by apply list_elem_of_singleton|reflexivity].
Defined.

(** ** Bootstrap *)

Lemma mustRegister_fresh (p : Params) (r : Registry) :
  Net p ∉ registeredNets r ->
  exists r', Register p r = Returned None r' /\ mustRegister p r = Returned tt r'.
Proof.
  intros Hfresh. destruct (Register_fresh p r Hfresh) as (r' & Hok & _).
  exists r'. split; [exact Hok|]. unfold mustRegister, mbind. by rewrite Hok.
Qed.

Lemma mustRegister_dup (p : Params) (r : Registry) :
  Net p ∈ registeredNets r ->
  mustRegister p r =
  Panicked "failed to register network: duplicate Earthcoin network".
Proof.
  intros Hin. unfold mustRegister, mbind. by rewrite (Register_dup p r Hin).
Qed.

(** One [mustRegister] of [init]: the Profile joins the registered ones
    when its magic differs from all of theirs. *)
Lemma mustRegister_step (ps : list Params) (r : Registry) (p : Params) :
  Registered ps r ->
  Forall (fun q => Net q <> Net p) ps ->
  exists r', mustRegister p r = Returned tt r' /\ Registered (ps ++ [p]) r'.
Proof.
  intros Hreg Hall.
  assert (Net p ∉ registeredNets r) as Hfresh.
  { rewrite (Registered_nets _ _ _ Hreg). intros (q & Hq & Hqn).
    rewrite Forall_forall in Hall. by apply (Hall q Hq). }
  destruct (mustRegister_fresh p r Hfresh) as (r' & Hok & Hmust).
  exists r'. split; [exact Hmust|]. by apply (Registered_snoc _ _ _ _ Hreg).
Qed.

(** X14.  When the four magics of package [wire] are pairwise distinct,
    [init] run on the empty registry returns without a panic, the registry
    it leaves is the one that registering main, test-v4, regression-test
    and simulation-test leaves, each call returning [nil], and the
    registered magics are exactly those four.  Whether the constants of
    wire/protocol.go are distinct is not decided here. *)
Theorem init_registers_defaults (MainNet TestNet TestNet4 SimNet : BitcoinNet) :
  NoDup [MainNet; TestNet4; TestNet; SimNet] ->
  exists r : Registry,
    init MainNet TestNet TestNet4 SimNet emptyRegistry = Returned tt r /\
    Registered [MainNetParams MainNet; TestNet4Params TestNet4;
                RegressionNetParams TestNet; SimNetParams SimNet] r /\
    registeredNets r = {[ MainNet; TestNet4; TestNet; SimNet ]}.
Proof.
  intros Hnd.
  apply NoDup_cons in Hnd as [H1 Hnd]. apply NoDup_cons in Hnd as [H2 Hnd].
  apply NoDup_cons in Hnd as [H3 _].
  apply not_elem_of_cons in H1 as [H12 H1].
  apply not_elem_of_cons in H1 as [H13 H1].
  apply not_elem_of_cons in H1 as [H14 _].
  apply not_elem_of_cons in H2 as [H23 H2].
  apply not_elem_of_cons in H2 as [H24 _].
  apply not_elem_of_cons in H3 as [H34 _].
  destruct (mustRegister_step [] _ (MainNetParams MainNet) Registered_nil)
    as (r1 & E1 & R1); [apply Forall_nil_2|].
  destruct (mustRegister_step _ _ (TestNet4Params TestNet4) R1)
    as (r2 & E2 & R2);
    [simpl; repeat apply Forall_cons_2; try apply Forall_nil_2; simpl; congruence|].
  destruct (mustRegister_step _ _ (RegressionNetParams TestNet) R2)
    as (r3 & E3 & R3);
    [simpl; repeat apply Forall_cons_2; try apply Forall_nil_2; simpl; congruence|].
  destruct (mustRegister_step _ _ (SimNetParams SimNet) R3)
    as (r4 & E4 & R4);
    [simpl; repeat apply Forall_cons_2; try apply Forall_nil_2; simpl; congruence|].
  simpl in R4. exists r4. split; [|split; [exact R4|]].
  - unfold init, mbind. by rewrite E1, E2, E3, E4.
  - apply set_eq. intros n. rewrite (Registered_nets _ _ _ R4).
    rewrite !elem_of_union, !elem_of_singleton. split.
    + intros (p & Hp & <-). rewrite !elem_of_cons in Hp.
      destruct Hp as [->|[->|[->|[->|Hp]]]]; simpl; auto.
      by apply elem_of_nil in Hp.
    + intros [[[->| ->]| ->]| ->];
        [ exists (MainNetParams MainNet) | exists (TestNet4Params TestNet4)
        | exists (RegressionNetParams TestNet) | exists (SimNetParams SimNet) ];
        (split; [rewrite !elem_of_cons; auto | reflexivity]).
Qed.

Lemma init_registers_defaults_witness :
  NoDup [sample.MainNet; sample.TestNet4; sample.TestNet; sample.SimNet] /\
  exists r : Registry,
    init sample.MainNet sample.TestNet sample.TestNet4 sample.SimNet
         emptyRegistry = Returned tt r /\
    registeredNets r =
      {[ sample.MainNet; sample.TestNet4; sample.TestNet; sample.SimNet ]}.
Proof.
  assert (NoDup [sample.MainNet; sample.TestNet4; sample.TestNet; sample.SimNet])
    as Hnd by nodup_by_eval.
  split; [exact Hnd|].
  destruct (init_registers_defaults _ _ _ _ Hnd) as (r & Hinit & _ & Hnets).
  exists r. split; [exact Hinit|exact Hnets].
Defined.

(** Were two of the magics equal, the second [mustRegister] would panic. *)
Example init_panics_on_a_shared_magic :
  init 1 2 1 3 emptyRegistry =
  Panicked "failed to register network: duplicate Earthcoin network".
Proof. vm_compute. reflexivity. Qed.

(** ** Proof-of-work limits *)

Example mainPowLimit_value : mainPowLimit = Some (0x0fffff * 2 ^ 216).
Proof. vm_compute. reflexivity. Qed.

Example CompactToBig_main_bits : CompactToBig 504365055 = 0x0fffff * 2 ^ 216.
Proof. vm_compute. reflexivity. Qed.

Example CompactToBig_regtest_bits : CompactToBig 0x207fffff = 0x7fffff * 2 ^ 232.
Proof. vm_compute. reflexivity. Qed.

(** C3 (amended).  On mainnet and testnet4 [PowLimitBits] decodes to
    exactly [PowLimit].  On regtest and simnet [PowLimit] is [2^255 - 1]
    while [PowLimitBits], 0x207fffff, decodes to [2^255 - 2^232]: [PowLimit]
    with everything below its 23 leading bits cleared, a smaller number. *)
Theorem PowLimitBits_decoding (MainNet TestNet TestNet4 SimNet : BitcoinNet) :
  PowLimit (MainNetParams MainNet)
    = Some (CompactToBig (PowLimitBits (MainNetParams MainNet))) /\
  PowLimit (TestNet4Params TestNet4)
    = Some (CompactToBig (PowLimitBits (TestNet4Params TestNet4))) /\
  Forall (fun p : Params =>
            PowLimit p = Some (2 ^ 255 - 1) /\
            CompactToBig (PowLimitBits p) = 2 ^ 255 - 2 ^ 232 /\
            CompactToBig (PowLimitBits p)
              = Z.shiftl (Z.shiftr (2 ^ 255 - 1) 232) 232 /\
            CompactToBig (PowLimitBits p) < 2 ^ 255 - 1)
         [RegressionNetParams TestNet; SimNetParams SimNet].
Proof.
  split; [vm_compute; reflexivity|]. split; [vm_compute; reflexivity|].
  repeat apply Forall_cons_2; try apply Forall_nil_2;
    repeat split; vm_compute; reflexivity.
Qed.

(** C3 as stated fails on the regression test network: the compact form
    decodes to a number below [PowLimit]. *)
Lemma PowLimitBits_regtest_counterexample :
  PowLimit (RegressionNetParams sample.TestNet) = Some (2 ^ 255 - 1) /\
  PowLimitBits (RegressionNetParams sample.TestNet) = 0x207fffff /\
  CompactToBig (PowLimitBits (RegressionNetParams sample.TestNet))
    = 2 ^ 255 - 2 ^ 232 /\
  2 ^ 255 - 2 ^ 232 < 2 ^ 255 - 1.
Proof. repeat split; vm_compute; reflexivity. Qed.

(** ** Checkpoints *)

Lemma heightsIncreaseb_head (a : Checkpoint) (rest : list Checkpoint) :
  heightsIncreaseb (a :: rest) = true ->
  forall (j : nat) (b : Checkpoint), rest !! j = Some b -> Height a < Height b.
Proof.
  revert a. induction rest as [|b0 rest IH]; intros a Hinc j b Hj.
  - by rewrite lookup_nil in Hj.
  - simpl in Hinc. apply andb_true_iff in Hinc as [Hab Hrest].
    apply Z.ltb_lt in Hab. destruct j as [|j]; simpl in Hj.
    + injection Hj as <-. exact Hab.
    + pose proof (IH b0 Hrest j b Hj). lia.
Qed.

Lemma heightsIncreaseb_tail (a : Checkpoint) (rest : list Checkpoint) :
  heightsIncreaseb (a :: rest) = true -> heightsIncreaseb rest = true.
Proof.
  destruct rest as [|b rest]; [done|]. simpl.
  intros [_ H]%andb_true_iff. exact H.
Qed.

Lemma heightsIncreaseb_sound (cps : list Checkpoint) :
  heightsIncreaseb cps = true -> heightsIncrease cps.
Proof.
  induction cps as [|a rest IH]; intros Hinc i j x y Hij Hi Hj.
  - by rewrite lookup_nil in Hi.
  - destruct j as [|j]; [lia|]. destruct i as [|i]; simpl in Hi, Hj.
    + injection Hi as <-. by apply (heightsIncreaseb_head a rest Hinc j).
    + apply (IH (heightsIncreaseb_tail _ _ Hinc) i j); [lia|done|done].
Qed.

(** C7.  In each default network the checkpoint heights strictly increase
    from oldest to newest; the lists of regtest and simnet are empty. *)
Theorem default_checkpoints_increase (MainNet TestNet TestNet4 SimNet : BitcoinNet) :
  Forall (fun p : Params => heightsIncrease (Checkpoints p))
         (defaultNets MainNet TestNet TestNet4 SimNet) /\
  Checkpoints (RegressionNetParams TestNet) = [] /\
  Checkpoints (SimNetParams SimNet) = [].
Proof.
  split; [|split; reflexivity].
  unfold defaultNets.
  repeat apply Forall_cons_2; try apply Forall_nil_2;
    apply heightsIncreaseb_sound; vm_compute; reflexivity.
Qed.

(** ** Deployment windows *)

(** C8.  In each default network every defined deployment slot holds a
    window with [StartTime < ExpireTime], unless [ExpireTime] is the value
    that stands for "never expires". *)
Theorem default_deployment_windows (MainNet TestNet TestNet4 SimNet : BitcoinNet) :
  Forall (fun p : Params =>
            length (Deployments p) = DefinedDeployments /\
            Forall (fun slot : nat =>
                      exists d, Deployments p !! slot = Some d /\ windowSane d)
                   deploymentSlots)
         (defaultNets MainNet TestNet TestNet4 SimNet).
Proof.
  unfold defaultNets, deploymentSlots, windowSane.
  repeat apply Forall_cons_2; try apply Forall_nil_2;
    (split; [reflexivity|]);
    repeat apply Forall_cons_2; try apply Forall_nil_2;
    (eexists; split; [reflexivity|]);
    first [ left; reflexivity | right; vm_compute; reflexivity ].
Qed.

(** The windows of the default networks are in fact all proper, the
    never-expiring ones included. *)
Lemma default_deployment_windows_strict
    (MainNet TestNet TestNet4 SimNet : BitcoinNet) :
  Forall (fun p : Params =>
            Forall (fun d => StartTime d < ExpireTime d) (Deployments p))
         (defaultNets MainNet TestNet TestNet4 SimNet).
Proof.
  unfold defaultNets.
  repeat apply Forall_cons_2; try apply Forall_nil_2;
    repeat apply Forall_cons_2; try apply Forall_nil_2; vm_compute; reflexivity.
Qed.

(** ** Lower-casing *)

Lemma lowerByte_not_upper (c : ascii) : isUpperByte (lowerByte c) = false.
Proof. destruct c as [[] [] [] [] [] [] [] []]; reflexivity. Qed.

Lemma hasUpper_mapBytes_lowerByte (s : string) :
  hasUpper (mapBytes lowerByte s) = false.
Proof.
  induction s as [|c s IH]; simpl; [done|].
  by rewrite lowerByte_not_upper, IH.
Qed.

Lemma isASCII_app (s t : string) :
  isASCII (s +:+ t) = isASCII s && isASCII t.
Proof.
  induction s as [|c s IH]; simpl; [done|]. by rewrite IH, andb_assoc.
Qed.

Lemma hasUpper_app (s t : string) :
  hasUpper (s +:+ t) = hasUpper s || hasUpper t.
Proof.
  induction s as [|c s IH]; simpl; [done|]. by rewrite IH, orb_assoc.
Qed.

Lemma mapBytes_app (f : ascii -> ascii) (s t : string) :
  mapBytes f (s +:+ t) = mapBytes f s +:+ mapBytes f t.
Proof. induction s as [|c s IH]; simpl; [done|]. by rewrite IH. Qed.

Lemma string_app_inv_tail (s1 s2 : string) (c : ascii) :
  s1 +:+ String c "" = s2 +:+ String c "" -> s1 = s2.
Proof.
  revert s2. induction s1 as [|a s1 IH]; intros [|b s2]; simpl; intros H.
  - done.
  - injection H as _ H. destruct s2; discriminate.
  - injection H as _ H. destruct s1; discriminate.
  - injection H as -> H. f_equal. by apply IH.
Qed.

(** A stored prefix ends in the separator, so it is never ["eac"]. *)
Lemma stored_prefix_not_eac (hrp : string) : hrp +:+ "1" <> "eac".
Proof.
  destruct hrp as [|c1 [|c2 [|c3 [|c4 hrp]]]]; simpl; discriminate.
Qed.

Section LowerCasing.

Variable mapUnicodeToLower : string -> string.

(** On an ASCII string the result has no upper-case letter. *)
Lemma ToLower_ascii_no_upper (s : string) :
  isASCII s = true -> hasUpper (ToLower mapUnicodeToLower s) = false.
Proof using Type.
  intros Hs. unfold ToLower. rewrite Hs.
  destruct (hasUpper s) eqn:E; [apply hasUpper_mapBytes_lowerByte|exact E].
Qed.

(** Lower-casing goes through the separator. *)
Lemma ToLower_ascii_separator (s : string) :
  isASCII s = true ->
  ToLower mapUnicodeToLower (s +:+ "1") = ToLower mapUnicodeToLower s +:+ "1".
Proof using Type.
  intros Hs. unfold ToLower.
  rewrite isASCII_app, hasUpper_app, Hs, orb_false_r. simpl.
  destruct (hasUpper s); [|done]. by rewrite mapBytes_app.
Qed.

Lemma IsBech32SegwitPrefix_true (s : string) (r : Registry) :
  IsBech32SegwitPrefix mapUnicodeToLower s r = true <->
  ToLower mapUnicodeToLower s ∈ bech32SegwitPrefixes r.
Proof using Type. unfold IsBech32SegwitPrefix. apply bool_decide_eq_true. Qed.

(** The query lower-cases its argument and looks the result up among the
    stored [hrp + "1"] strings. *)
Lemma IsBech32SegwitPrefix_registered
    (ps : list Params) (r : Registry) (s : string) :
  Registered ps r ->
  IsBech32SegwitPrefix mapUnicodeToLower s r = true <->
  exists q, q ∈ ps /\ Bech32HRPSegwit q +:+ "1" = ToLower mapUnicodeToLower s.
Proof using Type.
  intros Hreg. rewrite IsBech32SegwitPrefix_true.
  apply (Registered_bech32 _ _ _ Hreg).
Qed.

End LowerCasing.

(** ** The bech32 prefix query *)

Section Bech32.

Variable mapUnicodeToLower : string -> string.

(** C4.  With a Profile whose [Bech32HRPSegwit] is ["eac"] registered, the
    query answers true on ["eac1"], ["EAC1"] and ["Eac1"] and false on
    ["eac"], which lacks the separator; in general it lower-cases its
    argument and tests it for membership among the stored [hrp + "1"]
    strings. *)
Theorem IsBech32SegwitPrefix_eac (ps : list Params) (r : Registry) (p : Params) :
  Registered ps r ->
  p ∈ ps ->
  Bech32HRPSegwit p = "eac" ->
  IsBech32SegwitPrefix mapUnicodeToLower "eac1" r = true /\
  IsBech32SegwitPrefix mapUnicodeToLower "EAC1" r = true /\
  IsBech32SegwitPrefix mapUnicodeToLower "Eac1" r = true /\
  IsBech32SegwitPrefix mapUnicodeToLower "eac" r = false /\
  forall s : string,
    IsBech32SegwitPrefix mapUnicodeToLower s r
    = bool_decide (ToLower mapUnicodeToLower s ∈ bech32SegwitPrefixes r) /\
    (ToLower mapUnicodeToLower s ∈ bech32SegwitPrefixes r <->
     exists q, q ∈ ps /\ Bech32HRPSegwit q +:+ "1" = ToLower mapUnicodeToLower s).
Proof using Type.
  intros Hreg Hp Hhrp.
  assert (forall s, ToLower mapUnicodeToLower s = "eac1" ->
                    IsBech32SegwitPrefix mapUnicodeToLower s r = true) as Hyes.
  { intros s Hs. apply (IsBech32SegwitPrefix_registered _ _ _ _ Hreg).
    exists p. split; [exact Hp|]. by rewrite Hhrp, Hs. }
  split; [by apply Hyes|]. split; [by apply Hyes|]. split; [by apply Hyes|].
  split.
  - apply not_true_is_false. intros Htrue.
    apply (IsBech32SegwitPrefix_registered _ _ _ _ Hreg) in Htrue
      as (q & _ & Hq).
    by apply (stored_prefix_not_eac (Bech32HRPSegwit q)).
  - intros s. split; [reflexivity|]. apply (Registered_bech32 _ _ _ Hreg).
Qed.



(** For an ASCII [Bech32HRPSegwit] the lower-cased prefix is the
    lower-cased part followed by the separator, and the Profiles that answer
    for it are those whose part is that lower-cased part. *)
Lemma IsBech32SegwitPrefix_upper_case_ascii_hrp
    (ps : list Params) (r : Registry) (p : Params) (q : string) :
  Registered ps r ->
  p ∈ ps ->
  isASCII (Bech32HRPSegwit p) = true ->
  hasUpper (Bech32HRPSegwit p) = true ->
  casingOf (ToLower mapUnicodeToLower) (Bech32HRPSegwit p +:+ "1") q ->
  ToLower mapUnicodeToLower q <> Bech32HRPSegwit p +:+ "1" /\
  (IsBech32SegwitPrefix mapUnicodeToLower q r = true <->
   exists p', p' ∈ ps /\
     Bech32HRPSegwit p' = ToLower mapUnicodeToLower (Bech32HRPSegwit p)) /\
  ((forall p', p' ∈ ps ->
      Bech32HRPSegwit p' <> ToLower mapUnicodeToLower (Bech32HRPSegwit p)) ->
   IsBech32SegwitPrefix mapUnicodeToLower q r = false).
Proof using Type.
  intros Hreg Hp Hascii Hupper Hq. unfold casingOf in Hq.
  rewrite (ToLower_ascii_separator _ _ Hascii) in Hq.
  assert (IsBech32SegwitPrefix mapUnicodeToLower q r = true <->
          exists p', p' ∈ ps /\
            Bech32HRPSegwit p' = ToLower mapUnicodeToLower (Bech32HRPSegwit p))
    as Hiff.
  { rewrite (IsBech32SegwitPrefix_registered _ _ _ _ Hreg), Hq. split.
    - intros (p' & Hp' & E). exists p'. split; [exact Hp'|].
      by apply string_app_inv_tail in E.
    - intros (p' & Hp' & E). exists p'. by rewrite E. }
  split; [|split; [exact Hiff|]].
  - rewrite Hq. intros E. apply string_app_inv_tail in E.
    pose proof (ToLower_ascii_no_upper mapUnicodeToLower _ Hascii) as Hlow.
    rewrite E in Hlow. congruence.
  - intros Hnone. apply not_true_is_false. intros Htrue.
    apply Hiff in Htrue as (p' & Hp' & E). by apply (Hnone p' Hp').
Qed.

End Bech32.

Lemma IsBech32SegwitPrefix_eac_witness :
  let nets := defaultNets sample.MainNet sample.TestNet
                          sample.TestNet4 sample.SimNet in
  let r := runRegisters nets emptyRegistry in
  Registered nets r /\
  MainNetParams sample.MainNet ∈ nets /\
  Bech32HRPSegwit (MainNetParams sample.MainNet) = "eac" /\
  IsBech32SegwitPrefix sample.mapUnicodeToLower "eac1" r = true /\
  IsBech32SegwitPrefix sample.mapUnicodeToLower "EAC1" r = true /\
  IsBech32SegwitPrefix sample.mapUnicodeToLower "Eac1" r = true /\
  IsBech32SegwitPrefix sample.mapUnicodeToLower "eac" r = false.
Proof.
  intros nets r.
  assert (Registered nets r) as Hreg by (apply Registered_run; nodup_by_eval).
  assert (MainNetParams sample.MainNet ∈ nets) as Hin by apply list_elem_of_here.
  split; [exact Hreg|]. split; [exact Hin|]. split; [reflexivity|].
  destruct (IsBech32SegwitPrefix_eac sample.mapUnicodeToLower nets r
              (MainNetParams sample.MainNet) Hreg Hin eq_refl)
    as (H1 & H2 & H3 & H4 & _).
  repeat split; assumption.
Defined.



(** * Further properties of the registry *)

(** ** Nothing is ever removed *)

Lemma Register_grows (p : Params) (r r' : Registry) (e : option error) :
  Register p r = Returned e r' ->
  registeredNets r ⊆ registeredNets r' /\
  pubKeyHashAddrIDs r ⊆ pubKeyHashAddrIDs r' /\
  scriptHashAddrIDs r ⊆ scriptHashAddrIDs r' /\
  bech32SegwitPrefixes r ⊆ bech32SegwitPrefixes r' /\
  dom (hdPrivToPubKeyIDs r) ⊆ dom (hdPrivToPubKeyIDs r').
Proof.
  intros H. destruct (Register_total p r) as [Hdup|(r1 & Hok)].
  - rewrite Hdup in H. injection H as _ <-. done.
  - rewrite Hok in H. injection H as _ <-.
    apply Register_ok_inv in Hok as (_ & -> & -> & -> & -> & ->).
    rewrite dom_insert.
    repeat split; apply union_subseteq_r.
Qed.

Lemma runRegisters_grows (qs : list Params) (r : Registry) :
  registeredNets r ⊆ registeredNets (runRegisters qs r) /\
  pubKeyHashAddrIDs r ⊆ pubKeyHashAddrIDs (runRegisters qs r) /\
  scriptHashAddrIDs r ⊆ scriptHashAddrIDs (runRegisters qs r) /\
  bech32SegwitPrefixes r ⊆ bech32SegwitPrefixes (runRegisters qs r) /\
  dom (hdPrivToPubKeyIDs r) ⊆ dom (hdPrivToPubKeyIDs (runRegisters qs r)).
Proof.
  revert r. induction qs as [|q qs IH]; intros r; simpl; [done|].
  destruct (Register q r) as [e r1|msg] eqn:E; [|done].
  destruct (Register_grows q r r1 e E) as (H1 & H2 & H3 & H4 & H5).
  destruct (IH r1) as (I1 & I2 & I3 & I4 & I5).
  repeat split; etrans; eassumption.
Qed.

(** X1.  No call of [Register] removes anything: after any further run of
    calls, whatever they return, a registered magic is still registered,
    the three queries still answer true where they did, and an HD private
    prefix that was known is still known. *)
Theorem registrations_never_retract
    (mapUnicodeToLower : string -> string) (qs : list Params) (r : Registry) :
  (forall n : BitcoinNet,
      n ∈ registeredNets r -> n ∈ registeredNets (runRegisters qs r)) /\
  (forall id : byte,
      IsPubKeyHashAddrID id r = true ->
      IsPubKeyHashAddrID id (runRegisters qs r) = true) /\
  (forall id : byte,
      IsScriptHashAddrID id r = true ->
      IsScriptHashAddrID id (runRegisters qs r) = true) /\
  (forall s : string,
      IsBech32SegwitPrefix mapUnicodeToLower s r = true ->
      IsBech32SegwitPrefix mapUnicodeToLower s (runRegisters qs r) = true) /\
  (forall id pub : list byte,
      HDPrivateKeyToPublicKeyID id r = inr pub ->
      exists pub', HDPrivateKeyToPublicKeyID id (runRegisters qs r) = inr pub').
Proof.
  destruct (runRegisters_grows qs r) as (H1 & H2 & H3 & H4 & H5).
  split; [|split; [|split; [|split]]].
  - intros n Hn. by apply H1.
  - intros id. rewrite !IsPubKeyHashAddrID_true. apply H2.
  - intros id. rewrite !IsScriptHashAddrID_true. apply H3.
  - intros s. rewrite !IsBech32SegwitPrefix_true. apply H4.
  - intros id pub. rewrite !HDPrivateKeyToPublicKeyID_eq.
    destruct (decide (length id = 4%nat)); [|discriminate].
    destruct (hdPrivToPubKeyIDs r !! copy4 id) as [v|] eqn:E; [|discriminate].
    intros _.
    assert (copy4 id ∈ dom (hdPrivToPubKeyIDs (runRegisters qs r))) as Hin
      by (apply H5, elem_of_dom; eauto).
    apply elem_of_dom in Hin as [v' Hv']. rewrite Hv'. eauto.
Qed.

(** ** Repeating registrations *)

Lemma runRegisters_app (qs1 qs2 : list Params) (r : Registry) :
  runRegisters (qs1 ++ qs2) r = runRegisters qs2 (runRegisters qs1 r).
Proof.
  revert r. induction qs1 as [|q qs1 IH]; intros r; simpl; [done|].
  destruct (Register_total q r) as [Hdup|(r1 & Hok)].
  - rewrite Hdup. apply IH.
  - rewrite Hok. apply IH.
Qed.

(** Every magic that was offered is registered afterwards. *)
Lemma runRegisters_nets (qs : list Params) (r : Registry) (q : Params) :
  q ∈ qs -> Net q ∈ registeredNets (runRegisters qs r).
Proof.
  revert r. induction qs as [|q0 qs IH]; intros r Hq; simpl.
  - by apply elem_of_nil in Hq.
  - apply elem_of_cons in Hq as [->|Hq].
    + destruct (Register_total q0 r) as [Hdup|(r1 & Hok)].
      * rewrite Hdup. apply (proj1 (runRegisters_grows qs r)).
        by apply Register_dup_iff.
      * rewrite Hok. apply (proj1 (runRegisters_grows qs r1)).
        apply Register_ok_inv in Hok as (_ & -> & _).
        apply elem_of_union_l, elem_of_singleton. reflexivity.
    + destruct (Register_total q0 r) as [Hdup|(r1 & Hok)].
      * rewrite Hdup. by apply IH.
      * rewrite Hok. by apply IH.
Qed.

(** Calls whose magics are all registered change nothing. *)
Lemma runRegisters_all_dup (qs : list Params) (r : Registry) :
  (forall q, q ∈ qs -> Net q ∈ registeredNets r) -> runRegisters qs r = r.
Proof.
  induction qs as [|q qs IH]; intros Hall; simpl; [done|].
  rewrite Register_dup by (apply Hall, elem_of_cons; auto).
  apply IH. intros q' Hq'. apply Hall, elem_of_cons. auto.
Qed.

(** X6.  Running a batch of registrations a second time changes nothing:
    every call of the second pass fails on its magic and leaves the registry
    as the first pass left it. *)
Theorem registering_again_is_a_no_op (qs : list Params) (r : Registry) :
  runRegisters (qs ++ qs) r = runRegisters qs r /\
  Forall (fun q => Register q (runRegisters qs r)
                   = Returned (Some ErrDuplicateNet) (runRegisters qs r)) qs.
Proof.
  split.
  - rewrite runRegisters_app. apply runRegisters_all_dup.
    intros q Hq. by apply runRegisters_nets.
  - apply Forall_forall. intros q Hq. apply Register_dup.
    by apply runRegisters_nets.
Qed.

(** ** A registration touches only its own entries *)

(** X10.  Whatever [Register p] returns, each query answers afterwards as
    it did before on every argument other than [p]'s own: another address
    ID, a prefix that does not fold to [p]'s stored [hrp + "1"], an id
    other than [p]'s HD private prefix. *)
Theorem Register_frame
    (mapUnicodeToLower : string -> string)
    (p : Params) (r r' : Registry) (e : option error) :
  Register p r = Returned e r' ->
  (forall id : byte,
      id <> PubKeyHashAddrID p ->
      IsPubKeyHashAddrID id r' = IsPubKeyHashAddrID id r) /\
  (forall id : byte,
      id <> ScriptHashAddrID p ->
      IsScriptHashAddrID id r' = IsScriptHashAddrID id r) /\
  (forall s : string,
      ToLower mapUnicodeToLower s <> Bech32HRPSegwit p +:+ "1" ->
      IsBech32SegwitPrefix mapUnicodeToLower s r'
      = IsBech32SegwitPrefix mapUnicodeToLower s r) /\
  (forall id : list byte,
      id <> slice4 (HDPrivateKeyID p) ->
      HDPrivateKeyToPublicKeyID id r' = HDPrivateKeyToPublicKeyID id r).
Proof.
  intros H. destruct (Register_total p r) as [Hdup|(r1 & Hok)].
  { rewrite Hdup in H. injection H as _ <-. done. }
  rewrite Hok in H. injection H as _ <-.
  apply Register_ok_inv in Hok as (_ & _ & Hpk & Hsh & Hb & Hhd).
  split; [|split; [|split]].
  - intros id Hne. unfold IsPubKeyHashAddrID. rewrite Hpk.
    apply bool_decide_ext. rewrite elem_of_union, elem_of_singleton. tauto.
  - intros id Hne. unfold IsScriptHashAddrID. rewrite Hsh.
    apply bool_decide_ext. rewrite elem_of_union, elem_of_singleton. tauto.
  - intros s Hne. unfold IsBech32SegwitPrefix. rewrite Hb.
    apply bool_decide_ext. rewrite elem_of_union, elem_of_singleton. tauto.
  - intros id Hne. rewrite !HDPrivateKeyToPublicKeyID_eq.
    destruct (decide (length id = 4%nat)) as [Hlen|]; [|done].
    rewrite Hhd, lookup_insert_ne; [done|].
    intros Hk. apply Hne. by rewrite Hk, slice4_copy4.
Qed.

Lemma Register_frame_witness :
  let m := MainNetParams sample.MainNet in
  let t4 := TestNet4Params sample.TestNet4 in
  let r := runRegisters [m] emptyRegistry in
  let r' := runRegisters [t4] r in
  Register t4 r = Returned None r' /\
  IsPubKeyHashAddrID x30 r' = IsPubKeyHashAddrID x30 r /\
  HDPrivateKeyToPublicKeyID [x04; x88; xad; xe4] r'
    = HDPrivateKeyToPublicKeyID [x04; x88; xad; xe4] r.
Proof.
  intros m t4 r r'.
  assert (Register t4 r = Returned None r') as Hok by reflexivity.
  split; [exact Hok|].
  destruct (Register_frame sample.mapUnicodeToLower t4 r r' None Hok)
    as (Hpk & _ & _ & Hhd).
  split; [apply Hpk|apply Hhd]; vm_compute; discriminate.
Defined.

(** ** When [init] returns *)

Lemma mustRegister_Returned_inv (p : Params) (r r' : Registry) (u : unit) :
  mustRegister p r = Returned u r' -> Register p r = Returned None r'.
Proof.
  unfold mustRegister, mbind.
  destruct (Register_total p r) as [Hdup|(r1 & Hok)].
  - rewrite Hdup. discriminate.
  - rewrite Hok. unfold mret. by intros [= _ <-].
Qed.

(** [mustRegister] returns or panics with the one message. *)
Lemma mustRegister_outcome (p : Params) (r : Registry) :
  (exists r', mustRegister p r = Returned tt r') \/
  mustRegister p r
  = Panicked "failed to register network: duplicate Earthcoin network".
Proof.
  destruct (decide (Net p ∈ registeredNets r)) as [Hin|Hnin].
  - right. by apply mustRegister_dup.
  - left. destruct (mustRegister_fresh p r Hnin) as (r' & _ & H). eauto.
Qed.

(** The four registrations behind a returning [init]. *)
Lemma init_Returned_inv
    (MainNet TestNet TestNet4 SimNet : BitcoinNet) (r r' : Registry) :
  init MainNet TestNet TestNet4 SimNet r = Returned tt r' ->
  exists r1 r2 r3,
    Register (MainNetParams MainNet) r = Returned None r1 /\
    Register (TestNet4Params TestNet4) r1 = Returned None r2 /\
    Register (RegressionNetParams TestNet) r2 = Returned None r3 /\
    Register (SimNetParams SimNet) r3 = Returned None r'.
Proof.
  unfold init. unfold mbind at 1.
  destruct (mustRegister (MainNetParams MainNet) r) as [[] r1|] eqn:E1;
    [|discriminate].
  unfold mbind at 1.
  destruct (mustRegister (TestNet4Params TestNet4) r1) as [[] r2|] eqn:E2;
    [|discriminate].
  unfold mbind at 1.
  destruct (mustRegister (RegressionNetParams TestNet) r2) as [[] r3|] eqn:E3;
    [|discriminate].
  intros E4. exists r1, r2, r3.
  repeat split; by apply (mustRegister_Returned_inv _ _ _ tt).
Qed.

Lemma init_outcome
    (MainNet TestNet TestNet4 SimNet : BitcoinNet) (r : Registry) :
  (exists r', init MainNet TestNet TestNet4 SimNet r = Returned tt r') \/
  init MainNet TestNet TestNet4 SimNet r
  = Panicked "failed to register network: duplicate Earthcoin network".
Proof.
  unfold init, mbind.
  destruct (mustRegister_outcome (MainNetParams MainNet) r) as [[r1 E]|E];
    rewrite E; [clear E|by right].
  destruct (mustRegister_outcome (TestNet4Params TestNet4) r1) as [[r2 E]|E];
    rewrite E; [clear E|by right].
  destruct (mustRegister_outcome (RegressionNetParams TestNet) r2) as [[r3 E]|E];
    rewrite E; [clear E|by right].
  destruct (mustRegister_outcome (SimNetParams SimNet) r3) as [[r4 E]|E];
    rewrite E; [left; eauto|by right].
Qed.

(** X3.  From any registry, [init] returns exactly when the four default
    magics are pairwise distinct and none of them is registered yet; in
    every other case it panics with the message of [mustRegister] for a
    duplicate network.  In particular a second run of [init] panics. *)
Theorem init_returns_iff
    (MainNet TestNet TestNet4 SimNet : BitcoinNet) (r : Registry) :
  ((exists r', init MainNet TestNet TestNet4 SimNet r = Returned tt r') <->
   NoDup [MainNet; TestNet4; TestNet; SimNet] /\
   Forall (fun n => n ∉ registeredNets r) [MainNet; TestNet4; TestNet; SimNet]) /\
  ((exists r', init MainNet TestNet TestNet4 SimNet r = Returned tt r') \/
   init MainNet TestNet TestNet4 SimNet r
   = Panicked "failed to register network: duplicate Earthcoin network") /\
  (forall r',
      init MainNet TestNet TestNet4 SimNet r = Returned tt r' ->
      init MainNet TestNet TestNet4 SimNet r'
      = Panicked "failed to register network: duplicate Earthcoin network").
Proof.
  assert (forall r0 r',
             init MainNet TestNet TestNet4 SimNet r0 = Returned tt r' ->
             MainNet ∈ registeredNets r' /\
             NoDup [MainNet; TestNet4; TestNet; SimNet] /\
             Forall (fun n => n ∉ registeredNets r0)
                    [MainNet; TestNet4; TestNet; SimNet]) as Hinv.
  { intros r0 r' Hinit.
    apply init_Returned_inv in Hinit as (r1 & r2 & r3 & E1 & E2 & E3 & E4).
    apply Register_ok_inv in E1 as (F1 & N1 & _).
    apply Register_ok_inv in E2 as (F2 & N2 & _).
    apply Register_ok_inv in E3 as (F3 & N3 & _).
    apply Register_ok_inv in E4 as (F4 & N4 & _).
    simpl in *. rewrite N3, N2, N1 in F4. rewrite N2, N1 in F3.
    rewrite N1 in F2. rewrite N4, N3, N2, N1.
    assert (TestNet4 <> MainNet /\ TestNet4 ∉ registeredNets r0) as [D21 G2]
      by (split; intros ?; apply F2;
          rewrite elem_of_union, elem_of_singleton; auto).
    assert (TestNet <> TestNet4 /\ TestNet <> MainNet /\
            TestNet ∉ registeredNets r0) as (D32 & D31 & G3)
      by (repeat split; intros ?; apply F3;
          rewrite !elem_of_union, !elem_of_singleton; auto).
    assert (SimNet <> TestNet /\ SimNet <> TestNet4 /\ SimNet <> MainNet /\
            SimNet ∉ registeredNets r0) as (D43 & D42 & D41 & G4)
      by (repeat split; intros ?; apply F4;
          rewrite !elem_of_union, !elem_of_singleton; auto).
    split; [rewrite !elem_of_union, !elem_of_singleton; tauto|]. split.
    - repeat (apply NoDup_cons_2;
              [rewrite ?not_elem_of_cons; repeat split;
               try congruence; apply not_elem_of_nil|]).
      apply NoDup_nil_2.
    - repeat (apply Forall_cons_2; [assumption|]). apply Forall_nil_2. }
  split; [split|split].
  - intros [r' Hinit]. by destruct (Hinv r r' Hinit) as (_ & ? & ?).
  - intros [Hnd Hfresh].
    apply NoDup_cons in Hnd as [H1 Hnd]. apply NoDup_cons in Hnd as [H2 Hnd].
    apply NoDup_cons in Hnd as [H3 _].
    apply not_elem_of_cons in H1 as [H12 H1].
    apply not_elem_of_cons in H1 as [H13 H1].
    apply not_elem_of_cons in H1 as [H14 _].
    apply not_elem_of_cons in H2 as [H23 H2].
    apply not_elem_of_cons in H2 as [H24 _].
    apply not_elem_of_cons in H3 as [H34 _].
    apply Forall_cons in Hfresh as [G1 Hfresh].
    apply Forall_cons in Hfresh as [G2 Hfresh].
    apply Forall_cons in Hfresh as [G3 Hfresh].
    apply Forall_cons in Hfresh as [G4 _].
    destruct (mustRegister_fresh (MainNetParams MainNet) r G1)
      as (r1 & O1 & E1).
    apply Register_ok_inv in O1 as (_ & N1 & _).
    destruct (mustRegister_fresh (TestNet4Params TestNet4) r1)
      as (r2 & O2 & E2).
    { rewrite N1. simpl.
      rewrite not_elem_of_union, not_elem_of_singleton. auto. }
    apply Register_ok_inv in O2 as (_ & N2 & _).
    destruct (mustRegister_fresh (RegressionNetParams TestNet) r2)
      as (r3 & O3 & E3).
    { rewrite N2, N1. simpl.
      rewrite !not_elem_of_union, !not_elem_of_singleton. auto. }
    apply Register_ok_inv in O3 as (_ & N3 & _).
    destruct (mustRegister_fresh (SimNetParams SimNet) r3)
      as (r4 & O4 & E4).
    { rewrite N3, N2, N1. simpl.
      rewrite !not_elem_of_union, !not_elem_of_singleton. auto. }
    exists r4. unfold init, mbind. by rewrite E1, E2, E3, E4.
  - apply init_outcome.
  - intros r' Hinit. destruct (Hinv r r' Hinit) as (Hin & _ & _).
    unfold init. unfold mbind at 1.
    by rewrite (mustRegister_dup (MainNetParams MainNet) r' Hin).
Qed.

(** ** The registry that [init] leaves *)

Lemma init_Registered
    (MainNet TestNet TestNet4 SimNet : BitcoinNet) (r0 : Registry) :
  init MainNet TestNet TestNet4 SimNet emptyRegistry = Returned tt r0 ->
  Registered (defaultNets MainNet TestNet TestNet4 SimNet) r0.
Proof.
  intros Hinit.
  apply init_Returned_inv in Hinit as (r1 & r2 & r3 & E1 & E2 & E3 & E4).
  pose proof (Registered_snoc _ _ _ _ Registered_nil E1) as R1.
  pose proof (Registered_snoc _ _ _ _ R1 E2) as R2.
  pose proof (Registered_snoc _ _ _ _ R2 E3) as R3.
  exact (Registered_snoc _ _ _ _ R3 E4).
Qed.

(** X2.  The default networks occupy their magics for good: once [init]
    has returned, and after any further run of [Register] calls, a call
    with a Profile that carries one of the four default magics returns
    [ErrDuplicateNet] and leaves the registry as it was. *)
Theorem default_magics_are_taken
    (MainNet TestNet TestNet4 SimNet : BitcoinNet)
    (r0 : Registry) (qs : list Params) (p : Params) :
  init MainNet TestNet TestNet4 SimNet emptyRegistry = Returned tt r0 ->
  Net p ∈ [MainNet; TestNet4; TestNet; SimNet] ->
  Register p (runRegisters qs r0)
  = Returned (Some ErrDuplicateNet) (runRegisters qs r0).
Proof.
  intros Hinit Hp. apply Register_dup.
  apply (proj1 (runRegisters_grows qs r0)).
  apply (Registered_nets _ _ _ (init_Registered _ _ _ _ _ Hinit)).
  unfold defaultNets. rewrite !elem_of_cons in Hp.
  destruct Hp as [Hp|[Hp|[Hp|[Hp|Hp]]]];
    [ exists (MainNetParams MainNet) | exists (TestNet4Params TestNet4)
    | exists (RegressionNetParams TestNet) | exists (SimNetParams SimNet)
    | by apply elem_of_nil in Hp ];
    (split; [rewrite !elem_of_cons; auto | by rewrite Hp]).
Qed.

Lemma default_magics_are_taken_witness :
  let r0 := runRegisters (defaultNets sample.MainNet sample.TestNet
                                      sample.TestNet4 sample.SimNet)
                         emptyRegistry in
  let other := customParams 0xAABBCCDD "xyz" x1f x05
                            (x01, x02, x03, x04) (x05, x06, x07, x08) in
  let impostor := customParams sample.TestNet "xyz" x1f x05
                               (x01, x02, x03, x04) (x05, x06, x07, x08) in
  init sample.MainNet sample.TestNet sample.TestNet4 sample.SimNet
       emptyRegistry = Returned tt r0 /\
  Net impostor ∈ [sample.MainNet; sample.TestNet4; sample.TestNet; sample.SimNet] /\
  Register impostor (runRegisters [other] r0)
  = Returned (Some ErrDuplicateNet) (runRegisters [other] r0).
Proof.
  intros r0 other impostor.
  assert (init sample.MainNet sample.TestNet sample.TestNet4 sample.SimNet
               emptyRegistry = Returned tt r0) as Hinit by reflexivity.
  assert (Net impostor
            ∈ [sample.MainNet; sample.TestNet4; sample.TestNet; sample.SimNet])
    as Hin by (simpl; rewrite !elem_of_cons; auto).
  split; [exact Hinit|]. split; [exact Hin|].
  exact (default_magics_are_taken _ _ _ _ r0 [other] impostor Hinit Hin).
Defined.

(** X11.  After [init] every default network is recognized by all four
    queries: its two address IDs, its bech32 prefix [hrp + "1"], and its HD
    private prefix, whose lookup gives back the network's own HD public
    prefix (for testnet4 too, whose map entry regtest rewrites with the
    same four bytes). *)
Theorem default_networks_are_recognized
    (mapUnicodeToLower : string -> string)
    (MainNet TestNet TestNet4 SimNet : BitcoinNet) (r0 : Registry) :
  init MainNet TestNet TestNet4 SimNet emptyRegistry = Returned tt r0 ->
  Forall (fun p : Params =>
            IsPubKeyHashAddrID (PubKeyHashAddrID p) r0 = true /\
            IsScriptHashAddrID (ScriptHashAddrID p) r0 = true /\
            IsBech32SegwitPrefix mapUnicodeToLower
                                 (Bech32HRPSegwit p +:+ "1") r0 = true /\
            HDPrivateKeyToPublicKeyID (slice4 (HDPrivateKeyID p)) r0
            = inr (slice4 (HDPublicKeyID p)))
         (defaultNets MainNet TestNet TestNet4 SimNet).
Proof.
  intros Hinit. pose proof (init_Registered _ _ _ _ _ Hinit) as Hreg.
  assert (forall p, p ∈ defaultNets MainNet TestNet TestNet4 SimNet ->
            IsPubKeyHashAddrID (PubKeyHashAddrID p) r0 = true /\
            IsScriptHashAddrID (ScriptHashAddrID p) r0 = true) as Hids.
  { intros p Hp. split.
    - apply IsPubKeyHashAddrID_true, (Registered_pubKeyHash _ _ _ Hreg). eauto.
    - apply IsScriptHashAddrID_true, (Registered_scriptHash _ _ _ Hreg). eauto. }
  assert (forall p, p ∈ defaultNets MainNet TestNet TestNet4 SimNet ->
            ToLower mapUnicodeToLower (Bech32HRPSegwit p +:+ "1")
            = Bech32HRPSegwit p +:+ "1" ->
            IsBech32SegwitPrefix mapUnicodeToLower
                                 (Bech32HRPSegwit p +:+ "1") r0 = true) as Hhrp.
  { intros p Hp Hlow.
    apply (IsBech32SegwitPrefix_registered _ _ _ _ Hreg). eauto. }
  assert (forall p q,
            lastWithHDPrivateKeyID (HDPrivateKeyID p)
              (defaultNets MainNet TestNet TestNet4 SimNet) = Some q ->
            HDPublicKeyID q = HDPublicKeyID p ->
            HDPrivateKeyToPublicKeyID (slice4 (HDPrivateKeyID p)) r0
            = inr (slice4 (HDPublicKeyID p))) as Hhd.
  { intros p q Hlast Hpub.
    apply (HDPrivateKeyToPublicKeyID_succeeds _ _ _ _ Hreg).
    rewrite slice4_length, copy4_slice4. split; [done|].
    exists q. by rewrite Hpub. }
  unfold defaultNets in *.
  repeat apply Forall_cons_2; try apply Forall_nil_2.
  - destruct (Hids (MainNetParams MainNet)) as [? ?]; [apply list_elem_of_here|].
    repeat split; try assumption.
    + apply Hhrp; [apply list_elem_of_here|reflexivity].
    + by apply (Hhd _ (MainNetParams MainNet)).
  - destruct (Hids (TestNet4Params TestNet4)) as [? ?];
      [rewrite !elem_of_cons; auto|].
    repeat split; try assumption.
    + apply Hhrp; [rewrite !elem_of_cons; auto|reflexivity].
    + by apply (Hhd _ (RegressionNetParams TestNet)).
  - destruct (Hids (RegressionNetParams TestNet)) as [? ?];
      [rewrite !elem_of_cons; auto|].
    repeat split; try assumption.
    + apply Hhrp; [rewrite !elem_of_cons; auto|reflexivity].
    + by apply (Hhd _ (RegressionNetParams TestNet)).
  - destruct (Hids (SimNetParams SimNet)) as [? ?];
      [rewrite !elem_of_cons; auto|].
    repeat split; try assumption.
    + apply Hhrp; [rewrite !elem_of_cons; auto|reflexivity].
    + by apply (Hhd _ (SimNetParams SimNet)).
Qed.

Lemma default_networks_are_recognized_witness :
  let r0 := runRegisters (defaultNets sample.MainNet sample.TestNet
                                      sample.TestNet4 sample.SimNet)
                         emptyRegistry in
  init sample.MainNet sample.TestNet sample.TestNet4 sample.SimNet
       emptyRegistry = Returned tt r0 /\
  IsPubKeyHashAddrID x6f r0 = true /\
  IsScriptHashAddrID x3a r0 = true /\
  IsBech32SegwitPrefix sample.mapUnicodeToLower "teac1" r0 = true /\
  HDPrivateKeyToPublicKeyID [x04; x35; x83; x94] r0 = inr [x04; x35; x87; xcf].
Proof.
  intros r0.
  assert (init sample.MainNet sample.TestNet sample.TestNet4 sample.SimNet
               emptyRegistry = Returned tt r0) as Hinit by reflexivity.
  split; [exact Hinit|].
  pose proof (default_networks_are_recognized sample.mapUnicodeToLower
                _ _ _ _ r0 Hinit) as Hall.
  apply Forall_cons in Hall as [_ Hall].
  apply Forall_cons in Hall as [Ht4 _]. exact Ht4.
Defined.

(** X12.  With the default networks alone registered, the pubkey-hash IDs
    are 0x30, 0x6f and 0x3f, the script-hash IDs are 0x32, 0x3a and 0x7b,
    and no byte is both: [IsPubKeyHashAddrID] and [IsScriptHashAddrID]
    never both answer true, so no address ID is undeterminable. *)
Theorem default_address_IDs_are_unambiguous
    (MainNet TestNet TestNet4 SimNet : BitcoinNet) (r0 : Registry) :
  init MainNet TestNet TestNet4 SimNet emptyRegistry = Returned tt r0 ->
  pubKeyHashAddrIDs r0 = {[ x30; x6f; x3f ]} /\
  scriptHashAddrIDs r0 = {[ x32; x3a; x7b ]} /\
  forall id : byte,
    IsPubKeyHashAddrID id r0 && IsScriptHashAddrID id r0 = false.
Proof.
  intros Hinit. pose proof (init_Registered _ _ _ _ _ Hinit) as Hreg.
  assert (pubKeyHashAddrIDs r0 = {[ x30; x6f; x3f ]}) as Hpk.
  { apply set_eq. intros id. rewrite (Registered_pubKeyHash _ _ _ Hreg).
    unfold defaultNets. rewrite !elem_of_union, !elem_of_singleton. split.
    - intros (p & Hp & <-). rewrite !elem_of_cons in Hp.
      destruct Hp as [->|[->|[->|[->|Hp]]]]; simpl; auto.
      by apply elem_of_nil in Hp.
    - intros [[->| ->]| ->];
        [ exists (MainNetParams MainNet) | exists (TestNet4Params TestNet4)
        | exists (SimNetParams SimNet) ];
        (split; [rewrite !elem_of_cons; auto | reflexivity]). }
  assert (scriptHashAddrIDs r0 = {[ x32; x3a; x7b ]}) as Hsh.
  { apply set_eq. intros id. rewrite (Registered_scriptHash _ _ _ Hreg).
    unfold defaultNets. rewrite !elem_of_union, !elem_of_singleton. split.
    - intros (p & Hp & <-). rewrite !elem_of_cons in Hp.
      destruct Hp as [->|[->|[->|[->|Hp]]]]; simpl; auto.
      by apply elem_of_nil in Hp.
    - intros [[->| ->]| ->];
        [ exists (MainNetParams MainNet) | exists (TestNet4Params TestNet4)
        | exists (SimNetParams SimNet) ];
        (split; [rewrite !elem_of_cons; auto | reflexivity]). }
  split; [exact Hpk|]. split; [exact Hsh|].
  intros id. apply andb_false_iff.
  destruct (IsPubKeyHashAddrID id r0) eqn:E; [right|by left].
  apply IsPubKeyHashAddrID_true in E. rewrite Hpk in E.
  apply not_true_is_false. rewrite IsScriptHashAddrID_true, Hsh.
  rewrite !elem_of_union, !elem_of_singleton in E.
  rewrite !elem_of_union, !elem_of_singleton.
  destruct E as [[->| ->]| ->]; intros [[?|?]|?]; discriminate.
Qed.

Lemma default_address_IDs_are_unambiguous_witness :
  let r0 := runRegisters (defaultNets sample.MainNet sample.TestNet
                                      sample.TestNet4 sample.SimNet)
                         emptyRegistry in
  init sample.MainNet sample.TestNet sample.TestNet4 sample.SimNet
       emptyRegistry = Returned tt r0 /\
  IsPubKeyHashAddrID x3a r0 && IsScriptHashAddrID x3a r0 = false.
Proof.
  intros r0.
  assert (init sample.MainNet sample.TestNet sample.TestNet4 sample.SimNet
               emptyRegistry = Returned tt r0) as Hinit by reflexivity.
  split; [exact Hinit|].
  destruct (default_address_IDs_are_unambiguous _ _ _ _ r0 Hinit)
    as (_ & _ & Hno).
  apply Hno.
Defined.

(** ** The shape of an HD lookup's result *)

(** X4.  In a registry built from the empty maps by [Register] calls, a
    successful HD lookup was given exactly 4 bytes and returns exactly 4
    bytes, the [HDPublicKeyID] of one of the Profiles offered, whose
    [HDPrivateKeyID] is the id that was looked up. *)
Theorem HDPrivateKeyToPublicKeyID_four_bytes
    (qs : list Params) (id pub : list byte) :
  HDPrivateKeyToPublicKeyID id (runRegisters qs emptyRegistry) = inr pub ->
  length id = 4%nat /\ length pub = 4%nat /\
  exists q, q ∈ qs /\ slice4 (HDPrivateKeyID q) = id /\
            slice4 (HDPublicKeyID q) = pub.
Proof.
  intros Hok.
  destruct (runRegisters_Registered qs [] emptyRegistry Registered_nil)
    as (ps & Hreg & Hsub).
  simpl in Hreg.
  destruct (proj1 (HDPrivateKeyToPublicKeyID_succeeds _ _ _ _ Hreg) Hok)
    as (Hlen & q & Hlast & Hpub).
  apply lastWithHDPrivateKeyID_Some in Hlast as [Hq Hk].
  split; [exact Hlen|]. split; [rewrite Hpub; apply slice4_length|].
  exists q. split; [by apply Hsub|]. split; [|by rewrite Hpub].
  by rewrite Hk, slice4_copy4.
Qed.

Lemma HDPrivateKeyToPublicKeyID_four_bytes_witness :
  let qs := defaultNets sample.MainNet sample.TestNet
                        sample.TestNet4 sample.SimNet in
  HDPrivateKeyToPublicKeyID [x04; x20; xb9; x00] (runRegisters qs emptyRegistry)
    = inr [x04; x20; xbd; x3a] /\
  exists q, q ∈ qs /\ slice4 (HDPrivateKeyID q) = [x04; x20; xb9; x00] /\
            slice4 (HDPublicKeyID q) = [x04; x20; xbd; x3a].
Proof.
  intros qs.
  assert (HDPrivateKeyToPublicKeyID [x04; x20; xb9; x00]
            (runRegisters qs emptyRegistry) = inr [x04; x20; xbd; x3a])
    as Hok by reflexivity.
  split; [exact Hok|].
  destruct (HDPrivateKeyToPublicKeyID_four_bytes qs _ _ Hok) as (_ & _ & H).
  exact H.
Defined.

(** ** The order of registration *)

(** X5.  The registry does not depend on the order in which Profiles are
    registered: two runs that register the same Profiles leave the same
    magic set, address-ID sets and bech32 prefix set, and the same HD map,
    hence the same registry, when Profiles that share an HD private prefix
    agree on the public prefix. *)
Theorem registration_order_is_irrelevant
    (ps ps' : list Params) (r r' : Registry) :
  Registered ps r ->
  Registered ps' r' ->
  (forall p, p ∈ ps <-> p ∈ ps') ->
  registeredNets r = registeredNets r' /\
  pubKeyHashAddrIDs r = pubKeyHashAddrIDs r' /\
  scriptHashAddrIDs r = scriptHashAddrIDs r' /\
  bech32SegwitPrefixes r = bech32SegwitPrefixes r' /\
  (hdPrefixesAgree ps -> r = r').
Proof.
  intros Hreg Hreg' Hsame.
  assert (registeredNets r = registeredNets r') as E1.
  { apply set_eq. intros n.
    rewrite (Registered_nets _ _ _ Hreg), (Registered_nets _ _ _ Hreg').
    by setoid_rewrite Hsame. }
  assert (pubKeyHashAddrIDs r = pubKeyHashAddrIDs r') as E2.
  { apply set_eq. intros n.
    rewrite (Registered_pubKeyHash _ _ _ Hreg),
            (Registered_pubKeyHash _ _ _ Hreg').
    by setoid_rewrite Hsame. }
  assert (scriptHashAddrIDs r = scriptHashAddrIDs r') as E3.
  { apply set_eq. intros n.
    rewrite (Registered_scriptHash _ _ _ Hreg),
            (Registered_scriptHash _ _ _ Hreg').
    by setoid_rewrite Hsame. }
  assert (bech32SegwitPrefixes r = bech32SegwitPrefixes r') as E4.
  { apply set_eq. intros n.
    rewrite (Registered_bech32 _ _ _ Hreg), (Registered_bech32 _ _ _ Hreg').
    by setoid_rewrite Hsame. }
  repeat split; try assumption.
  intros Hagree.
  assert (hdPrivToPubKeyIDs r = hdPrivToPubKeyIDs r') as E5.
  { apply map_eq. intros k.
    rewrite (Registered_hdmap _ _ _ Hreg), (Registered_hdmap _ _ _ Hreg').
    destruct (lastWithHDPrivateKeyID k ps) as [q|] eqn:L;
      destruct (lastWithHDPrivateKeyID k ps') as [q'|] eqn:L'; simpl.
    - apply lastWithHDPrivateKeyID_Some in L as [Hq Hk].
      apply lastWithHDPrivateKeyID_Some in L' as [Hq' Hk'].
      apply Hsame in Hq'. f_equal. f_equal.
      apply Hagree; [done|done|congruence].
    - apply lastWithHDPrivateKeyID_Some in L as [Hq Hk].
      apply Hsame in Hq.
      by destruct (proj1 (lastWithHDPrivateKeyID_None _ _) L' q Hq).
    - apply lastWithHDPrivateKeyID_Some in L' as [Hq' Hk'].
      apply Hsame in Hq'.
      by destruct (proj1 (lastWithHDPrivateKeyID_None _ _) L q' Hq').
    - reflexivity. }
  destruct r, r'. simpl in *. congruence.
Qed.

Lemma registration_order_is_irrelevant_witness :
  let t4 := TestNet4Params sample.TestNet4 in
  let rt := RegressionNetParams sample.TestNet in
  let sn := SimNetParams sample.SimNet in
  Registered [t4; rt; sn] (runRegisters [t4; rt; sn] emptyRegistry) /\
  Registered [sn; rt; t4] (runRegisters [sn; rt; t4] emptyRegistry) /\
  runRegisters [t4; rt; sn] emptyRegistry
  = runRegisters [sn; rt; t4] emptyRegistry.
Proof.
  intros t4 rt sn.
  assert (Registered [t4; rt; sn] (runRegisters [t4; rt; sn] emptyRegistry))
    as H1 by (apply Registered_run; nodup_by_eval).
  assert (Registered [sn; rt; t4] (runRegisters [sn; rt; t4] emptyRegistry))
    as H2 by (apply Registered_run; nodup_by_eval).
  split; [exact H1|]. split; [exact H2|].
  destruct (registration_order_is_irrelevant _ _ _ _ H1 H2)
    as (_ & _ & _ & _ & Heq).
  - intros p. rewrite !elem_of_cons. tauto.
  - apply Heq. intros p q Hp Hq.
    rewrite !elem_of_cons in Hp, Hq.
    destruct Hp as [->|[->|[->|Hp]]]; [| | |by apply elem_of_nil in Hp];
      destruct Hq as [->|[->|[->|Hq]]];
      try (by apply elem_of_nil in Hq);
      first [ reflexivity | intros; discriminate ].
Defined.

(** ** Counting *)

(** X9.  The Profiles that registered have pairwise distinct magics, and
    the magic set has one element for each of them; the two address-ID
    sets, the bech32 prefix set and the HD map have at most that many. *)
Theorem registry_sizes (ps : list Params) (r : Registry) :
  Registered ps r ->
  NoDup (Net <$> ps) /\
  size (registeredNets r) = length ps /\
  (size (pubKeyHashAddrIDs r) <= length ps)%nat /\
  (size (scriptHashAddrIDs r) <= length ps)%nat /\
  (size (bech32SegwitPrefixes r) <= length ps)%nat /\
  (size (hdPrivToPubKeyIDs r) <= length ps)%nat.
Proof.
  intros Hreg. split; [by apply (Registered_NoDup _ r)|].
  induction Hreg as [|ps r0 p r' Hreg0 IH Hok].
  - repeat split; first [reflexivity | vm_compute; lia].
  - destruct IH as (I1 & I2 & I3 & I4 & I5).
    apply Register_ok_inv in Hok as (Hfresh & -> & -> & -> & -> & ->).
    rewrite length_app. simpl.
    assert (forall (A : Type) `{Countable A} (x : A) (X : gset A),
               (size ({[ x ]} ∪ X) <= size X + 1)%nat) as Hle.
    { intros A ? ? x X. rewrite size_union_alt, size_singleton.
      pose proof (subseteq_size (X ∖ {[ x ]}) X) as Hs.
      rewrite Nat.add_comm. apply Nat.add_le_mono_r, Hs, subseteq_difference_l.
      reflexivity. }
    split; [|split; [|split; [|split]]].
    + rewrite size_union by (by apply disjoint_singleton_l).
      rewrite size_singleton. lia.
    + etrans; [apply Hle|]. apply Nat.add_le_mono_r. exact I2.
    + etrans; [apply Hle|]. apply Nat.add_le_mono_r. exact I3.
    + etrans; [apply Hle|]. apply Nat.add_le_mono_r. exact I4.
    + rewrite map_size_insert. destruct (_ !! _); unfold id; lia.
Qed.

Lemma registry_sizes_witness :
  let nets := defaultNets sample.MainNet sample.TestNet
                          sample.TestNet4 sample.SimNet in
  let r := runRegisters nets emptyRegistry in
  Registered nets r /\
  size (registeredNets r) = 4%nat /\
  (size (hdPrivToPubKeyIDs r) <= 4)%nat /\
  size (hdPrivToPubKeyIDs r) = 3%nat.
Proof.
  intros nets r.
  assert (Registered nets r) as Hreg by (apply Registered_run; nodup_by_eval).
  split; [exact Hreg|].
  destruct (registry_sizes nets r Hreg) as (_ & Hn & _ & _ & _ & Hhd).
  split; [exact Hn|]. split; [exact Hhd|]. vm_compute. reflexivity.
Defined.

(** ** More on the bech32 prefix query *)

Lemma endsWithSeparator_cons (c : ascii) (s : string) :
  s <> EmptyString -> endsWithSeparator (String c s) = endsWithSeparator s.
Proof. by destruct s. Qed.

Lemma endsWithSeparator_stored (hrp : string) :
  endsWithSeparator (hrp +:+ "1") = true.
Proof.
  induction hrp as [|c hrp IH]; [reflexivity|].
  change (String c hrp +:+ "1") with (String c (hrp +:+ "1")).
  rewrite endsWithSeparator_cons; [exact IH|]. by destruct hrp.
Qed.

Lemma lowerByte_separator (c : ascii) :
  Ascii.eqb (lowerByte c) "1" = Ascii.eqb c "1".
Proof. destruct c as [[] [] [] [] [] [] [] []]; reflexivity. Qed.

Lemma endsWithSeparator_mapBytes_lowerByte (s : string) :
  endsWithSeparator (mapBytes lowerByte s) = endsWithSeparator s.
Proof.
  induction s as [|c s IH]; [reflexivity|].
  destruct s as [|c' s]; [apply lowerByte_separator|].
  change (mapBytes lowerByte (String c (String c' s)))
    with (String (lowerByte c) (mapBytes lowerByte (String c' s))).
  rewrite (endsWithSeparator_cons (lowerByte c)) by done.
  rewrite (endsWithSeparator_cons c (String c' s)) by done. exact IH.
Qed.

Section Bech32More.

Variable mapUnicodeToLower : string -> string.

Lemma ToLower_ascii_endsWithSeparator (s : string) :
  isASCII s = true ->
  endsWithSeparator (ToLower mapUnicodeToLower s) = endsWithSeparator s.
Proof using Type.
  intros Hs. unfold ToLower. rewrite Hs.
  destruct (hasUpper s); [apply endsWithSeparator_mapBytes_lowerByte|done].
Qed.

(** An ASCII string without upper-case letters is its own lower-casing. *)
Lemma ToLower_ascii_lower (s : string) :
  isASCII s = true -> hasUpper s = false -> ToLower mapUnicodeToLower s = s.
Proof using Type. intros Hs Hu. unfold ToLower. by rewrite Hs, Hu. Qed.

(** X7.  The separator is required: in a registry built by registrations,
    the query answers false on the empty string and on every ASCII string
    whose last byte is not ['1'], whatever Profiles are registered. *)
Theorem IsBech32SegwitPrefix_needs_separator
    (ps : list Params) (r : Registry) (q : string) :
  Registered ps r ->
  isASCII q = true ->
  endsWithSeparator q = false ->
  IsBech32SegwitPrefix mapUnicodeToLower q r = false.
Proof using Type.
  intros Hreg Hascii Hsep. apply not_true_is_false. intros Htrue.
  apply (IsBech32SegwitPrefix_registered _ _ _ _ Hreg) in Htrue
    as (p & _ & Hp).
  pose proof (endsWithSeparator_stored (Bech32HRPSegwit p)) as Hends.
  rewrite Hp, (ToLower_ascii_endsWithSeparator _ Hascii) in Hends. congruence.
Qed.

(** X8.  A Profile registered with an ASCII [Bech32HRPSegwit] that has no
    upper-case letter is found under every casing of its prefix: the query
    answers true on each string that folds to the same lower case as
    [hrp + "1"]. *)
Theorem IsBech32SegwitPrefix_lower_case_hrp
    (ps : list Params) (r : Registry) (p : Params) (q : string) :
  Registered ps r ->
  p ∈ ps ->
  isASCII (Bech32HRPSegwit p) = true ->
  hasUpper (Bech32HRPSegwit p) = false ->
  casingOf (ToLower mapUnicodeToLower) (Bech32HRPSegwit p +:+ "1") q ->
  IsBech32SegwitPrefix mapUnicodeToLower q r = true.
Proof using Type.
  intros Hreg Hp Hascii Hlower Hq. unfold casingOf in Hq.
  rewrite (ToLower_ascii_lower (Bech32HRPSegwit p +:+ "1")) in Hq.
  - apply (IsBech32SegwitPrefix_registered _ _ _ _ Hreg).
    exists p. split; [exact Hp|]. by rewrite Hq.
  - by rewrite isASCII_app, Hascii.
  - by rewrite hasUpper_app, Hlower.
Qed.

End Bech32More.

Lemma IsBech32SegwitPrefix_needs_separator_witness :
  let nets := defaultNets sample.MainNet sample.TestNet
                          sample.TestNet4 sample.SimNet in
  let r := runRegisters nets emptyRegistry in
  Registered nets r /\
  isASCII "TEAC" = true /\ endsWithSeparator "TEAC" = false /\
  IsBech32SegwitPrefix sample.mapUnicodeToLower "TEAC" r = false.
Proof.
  intros nets r.
  assert (Registered nets r) as Hreg by (apply Registered_run; nodup_by_eval).
  split; [exact Hreg|]. split; [reflexivity|]. split; [reflexivity|].
  exact (IsBech32SegwitPrefix_needs_separator sample.mapUnicodeToLower
           nets r "TEAC" Hreg eq_refl eq_refl).
Defined.

Lemma IsBech32SegwitPrefix_lower_case_hrp_witness :
  let nets := defaultNets sample.MainNet sample.TestNet
                          sample.TestNet4 sample.SimNet in
  let r := runRegisters nets emptyRegistry in
  let t4 := TestNet4Params sample.TestNet4 in
  Registered nets r /\ t4 ∈ nets /\
  isASCII (Bech32HRPSegwit t4) = true /\ hasUpper (Bech32HRPSegwit t4) = false /\
  casingOf (ToLower sample.mapUnicodeToLower) (Bech32HRPSegwit t4 +:+ "1") "tEaC1" /\
  IsBech32SegwitPrefix sample.mapUnicodeToLower "tEaC1" r = true.
Proof.
  intros nets r t4.
  assert (Registered nets r) as Hreg by (apply Registered_run; nodup_by_eval).
  assert (t4 ∈ nets) as Hin
    by (unfold nets, defaultNets; rewrite !elem_of_cons; auto).
  split; [exact Hreg|]. split; [exact Hin|].
  split; [reflexivity|]. split; [reflexivity|]. split; [reflexivity|].
  exact (IsBech32SegwitPrefix_lower_case_hrp sample.mapUnicodeToLower
           nets r t4 "tEaC1" Hreg Hin eq_refl eq_refl eq_refl).
Defined.

(** ** The first registration of a magic wins *)

Lemma accepted_spec (qs : list Params) (r : Registry) (q : Params) :
  q ∈ accepted qs r <->
  (Net q ∉ registeredNets r) /\ firstWithNet (Net q) qs = Some q.
Proof.
  revert r. induction qs as [|q0 qs IH]; intros r; simpl.
  - split; [intros H; by apply elem_of_nil in H|intros [_ H]; discriminate].
  - unfold firstWithNet in *. simpl.
    destruct (decide (Net q0 ∈ registeredNets r)) as [Hin|Hfresh].
    + rewrite (Register_dup q0 r Hin), IH.
      destruct (decide (Net q0 = Net q)) as [E|E].
      * rewrite (bool_decide_eq_true_2 _ E). rewrite <- E.
        split; intros [? ?]; done.
      * by rewrite (bool_decide_eq_false_2 _ E).
    + destruct (Register_fresh q0 r Hfresh) as (r1 & Hok & Hnets & _).
      rewrite Hok, elem_of_cons, IH, Hnets.
      rewrite not_elem_of_union, not_elem_of_singleton.
      destruct (decide (Net q0 = Net q)) as [E|E].
      * rewrite (bool_decide_eq_true_2 _ E). split.
        -- intros [->|[[Hne _] _]]; [done|congruence].
        -- intros [_ [= ->]]. by left.
      * rewrite (bool_decide_eq_false_2 _ E). split.
        -- intros [->|[[_ ?] ?]]; done.
        -- intros [? ?]. right. repeat split; done.
Qed.

Lemma runRegisters_accepted (qs : list Params) (r : Registry) :
  runRegisters (accepted qs r) r = runRegisters qs r.
Proof.
  revert r. induction qs as [|q qs IH]; intros r; simpl; [done|].
  destruct (Register_total q r) as [Hdup|(r1 & Hok)].
  - rewrite Hdup. apply IH.
  - rewrite Hok. simpl. rewrite Hok. apply IH.
Qed.

Lemma accepted_Registered (qs ps : list Params) (r : Registry) :
  Registered ps r -> Registered (ps ++ accepted qs r) (runRegisters qs r).
Proof.
  revert ps r. induction qs as [|q qs IH]; intros ps r Hreg; simpl.
  - by rewrite app_nil_r.
  - destruct (Register_total q r) as [Hdup|(r1 & Hok)].
    + rewrite Hdup. by apply IH.
    + rewrite Hok.
      replace (ps ++ q :: accepted qs r1) with ((ps ++ [q]) ++ accepted qs r1)
        by (by rewrite <- app_assoc).
      apply IH. by apply (Registered_snoc _ _ _ _ Hreg).
Qed.

(** X13.  Of the Profiles offered under one magic, the first wins.  After
    any run of [Register] calls on the empty maps, the calls that returned
    [nil] are exactly those of the first Profile offered under each magic;
    the registry is the one these Profiles alone would leave, and the later
    Profiles of a magic contribute nothing. *)
Theorem first_registration_wins (qs : list Params) :
  (forall q : Params,
      q ∈ accepted qs emptyRegistry <-> firstWithNet (Net q) qs = Some q) /\
  Registered (accepted qs emptyRegistry) (runRegisters qs emptyRegistry) /\
  runRegisters (accepted qs emptyRegistry) emptyRegistry
  = runRegisters qs emptyRegistry.
Proof.
  split; [|split].
  - intros q. rewrite accepted_spec. simpl. split; [by intros [_ ?]|].
    intros H. split; [apply not_elem_of_empty|exact H].
  - apply (accepted_Registered qs [] emptyRegistry Registered_nil).
  - apply runRegisters_accepted.
Qed.
